(** * E-commerce API backend: order enrichment, pricing and aggregation

    A shallow embedding of [main.py] and [schemas.py]: the tables the
    endpoints touch become lists of rows in scan order, every endpoint becomes a
    function from a store (and the clock, where the endpoint reads it) to a
    new store and a result, and a raised exception becomes the left summand
    of the result.

    Python values are kept as the code has them: a nullable column is an
    [option], a [Float] column is a binary64 float, an [Integer] column is an
    integer, and an operation that raises on [None] raises here too. *)

From Stdlib Require Import ZArith List String Ascii Bool Lia.
From Stdlib Require Import Permutation Sorted.
From Stdlib Require Import Floats DecimalString.
Import ListNotations.

Open Scope string_scope.
Open Scope Z_scope.

(* ================================================================== *)
(** * Python values and exceptions *)
(* ================================================================== *)

Module Py.

(** The exceptions the endpoints can raise.  [HTTPException] is the one
    the code raises itself; [TypeError] is what the interpreter raises
    for arithmetic or comparison on [None]; [IntegrityError] is what the
    session raises at [commit] when a row breaks a declared constraint. *)
Inductive exn : Type :=
| HTTPException (status_code : Z) (detail : string)
| TypeError
| IntegrityError.

Definition result (A : Type) : Type := (exn + A)%type.

Definition ret {A} (a : A) : result A := inr a.
Definition raise {A} (e : exn) : result A := inl e.
Definition bind {A B} (m : result A) (k : A -> result B) : result B :=
  match m with
  | inl e => inl e
  | inr a => k a
  end.

(** [[f(x) for x in xs]]: the first exception aborts the comprehension. *)
Fixpoint mapM {A B} (f : A -> result B) (xs : list A) : result (list B) :=
  match xs with
  | [] => ret []
  | x :: xs' =>
      bind (f x) (fun y => bind (mapM f xs') (fun ys => ret (y :: ys)))
  end.

(** [for x in xs: acc = body(acc, x)], with a body that may raise. *)
Fixpoint foldM {A S} (body : S -> A -> result S) (xs : list A) (acc : S)
  : result S :=
  match xs with
  | [] => ret acc
  | x :: xs' => bind (body acc x) (foldM body xs')
  end.

(** Truth value of an [Optional[bool]]: [None] and [False] are falsy. *)
Definition truthy (b : option bool) : bool :=
  match b with
  | Some true => true
  | _ => false
  end.

(** [x is not None]. *)
Definition is_not_None {A} (x : option A) : bool :=
  match x with
  | Some _ => true
  | None => false
  end.

(** [float(n)] for an integer [n]: the nearest binary64 value, ties to
    even.  The integers converted here are read back from [Integer]
    columns, far below the magnitude at which CPython raises
    [OverflowError]. *)
Definition float_of_int (n : Z) : float :=
  SF2Prim (binary_normalize prec emax n 0 false).

(** [float(x)]: the identity on a float, [TypeError] on [None]. *)
Definition float_ (x : option float) : result float :=
  match x with
  | Some f => ret f
  | None => raise TypeError
  end.

(** [x > 0] for a float column value [x]: [TypeError] on [None], false on
    NaN. *)
Definition gt_zero (x : option float) : result bool :=
  match x with
  | Some f => ret (PrimFloat.ltb 0%float f)
  | None => raise TypeError
  end.

(** [f * n] with [f] a float and [n] an integer column value. *)
Definition mul_float_int (f : float) (n : option Z) : result float :=
  match n with
  | Some q => ret (PrimFloat.mul f (float_of_int q))
  | None => raise TypeError
  end.

(** [n * x] with [n] an integer column value and [x] a float column
    value. *)
Definition mul_int_float (n : option Z) (x : option float) : result float :=
  match n, x with
  | Some q, Some f => ret (PrimFloat.mul (float_of_int q) f)
  | _, _ => raise TypeError
  end.

(** [acc + n] with [acc] an integer and [n] an integer column value. *)
Definition add_int (acc : Z) (n : option Z) : result Z :=
  match n with
  | Some q => ret (acc + q)
  | None => raise TypeError
  end.

(** [str(n)] for an integer. *)
Definition str_int (n : Z) : string := NilZero.string_of_int (Z.to_int n).

(** [str(x)] inside an f-string, for a nullable integer or string. *)
Definition str_opt_int (n : option Z) : string :=
  match n with
  | Some z => str_int z
  | None => "None"
  end.

Definition str_opt (s : option string) : string :=
  match s with
  | Some s' => s'
  | None => "None"
  end.

(** [str.strip()].  Strings are modelled as ASCII text, on which the
    whitespace characters are tab to carriage return, the four
    separators 28 to 31, and the space. *)
Definition isspace (c : ascii) : bool :=
  let n := nat_of_ascii c in
  ((9 <=? n) && (n <=? 13) || (28 <=? n) && (n <=? 32))%nat.

Fixpoint lstrip (s : string) : string :=
  match s with
  | EmptyString => EmptyString
  | String c s' => if isspace c then lstrip s' else s
  end.

Fixpoint rstrip (s : string) : string :=
  match s with
  | EmptyString => EmptyString
  | String c s' =>
      match rstrip s' with
      | EmptyString => if isspace c then EmptyString else String c EmptyString
      | r => String c r
      end
  end.

Definition strip (s : string) : string := rstrip (lstrip s).

(** [s or default]: [None] and the empty string are falsy. *)
Definition str_or (s : option string) (default : string) : string :=
  match s with
  | Some EmptyString | None => default
  | Some s' => s'
  end.

(** Zero-padded decimal fields of [strftime] and [isoformat]. *)
Definition pad2 (n : Z) : string :=
  if (n <? 10)%Z then "0" ++ str_int n else str_int n.

Definition pad4 (n : Z) : string :=
  if (n <? 10)%Z then "000" ++ str_int n
  else if (n <? 100)%Z then "00" ++ str_int n
  else if (n <? 1000)%Z then "0" ++ str_int n
  else str_int n.

(** [datetime.date] and [datetime.datetime]. *)
Record date : Type := mkdate { year : Z; month : Z; day : Z }.

Record datetime : Type := mkdatetime {
  on : date; hour : Z; minute : Z; second : Z; microsecond : Z
}.

(** [d.strftime('%Y-%m-%d')].  The year is printed as the C library
    prints [%Y], without padding: a year below 1000 comes out in fewer
    than four digits. *)
Definition strftime_Ymd (d : date) : string :=
  str_int (year d) ++ "-" ++ pad2 (month d) ++ "-" ++ pad2 (day d).

(** [d.isoformat()] of a [date]: the year always takes four digits. *)
Definition isoformat_date (d : date) : string :=
  pad4 (year d) ++ "-" ++ pad2 (month d) ++ "-" ++ pad2 (day d).

(** [t.strftime('%Y-%m-%d %H:%M')]. *)
Definition strftime_YmdHM (t : datetime) : string :=
  strftime_Ymd (on t) ++ " " ++ pad2 (hour t) ++ ":" ++ pad2 (minute t).

Definition pad6 (n : Z) : string :=
  if (n <? 10)%Z then "00000" ++ str_int n
  else if (n <? 100)%Z then "0000" ++ str_int n
  else if (n <? 1000)%Z then "000" ++ str_int n
  else if (n <? 10000)%Z then "00" ++ str_int n
  else if (n <? 100000)%Z then "0" ++ str_int n
  else str_int n.

(** [t.isoformat()] of a [datetime]: the fraction is printed only when
    it is not zero. *)
Definition isoformat (t : datetime) : string :=
  isoformat_date (on t) ++ "T" ++ pad2 (hour t) ++ ":" ++ pad2 (minute t)
    ++ ":" ++ pad2 (second t)
    ++ (if (microsecond t =? 0)%Z then "" else "." ++ pad6 (microsecond t)).

End Py.

Import Py.

Declare Scope py_scope.
Delimit Scope py_scope with py.
Notation "x <- m ;; k" := (Py.bind m (fun x => k))
  (at level 61, m at next level, right associativity) : py_scope.
Open Scope py_scope.

(* ================================================================== *)
(** * Database models ([main.py], lines 39-78) *)
(* ================================================================== *)

(** A column declared without [nullable=False] and outside the primary key
    is nullable, so its value is an [option]. *)

Module Product.
Record t : Type := mk {
  id : Z;
  name : string;                 (* nullable=False *)
  price : option float;
  category_id : option Z;
  description : option string;
  image : option string;
  is_sale : option bool;
  sale_price : option float
}.
End Product.

Module Customer.
Record t : Type := mk {
  id : Z;
  first_name : option string;
  last_name : option string;
  phone : option string;
  email : option string;         (* unique=True *)
  password : option string
}.
End Customer.

Module Order.
Record t : Type := mk {
  id : Z;
  product_id : option Z;
  customer_id : option Z;
  quantity : option Z;
  address : option string;
  phone : option string;
  date : option Py.date;
  status : option bool;
  date_shipped : option Py.datetime
}.

Definition set_product_id (v : option Z) (o : t) : t :=
  mk (id o) v (customer_id o) (quantity o) (address o) (phone o) (date o)
     (status o) (date_shipped o).
Definition set_customer_id (v : option Z) (o : t) : t :=
  mk (id o) (product_id o) v (quantity o) (address o) (phone o) (date o)
     (status o) (date_shipped o).
Definition set_quantity (v : option Z) (o : t) : t :=
  mk (id o) (product_id o) (customer_id o) v (address o) (phone o) (date o)
     (status o) (date_shipped o).
Definition set_address (v : option string) (o : t) : t :=
  mk (id o) (product_id o) (customer_id o) (quantity o) v (phone o) (date o)
     (status o) (date_shipped o).
Definition set_phone (v : option string) (o : t) : t :=
  mk (id o) (product_id o) (customer_id o) (quantity o) (address o) v (date o)
     (status o) (date_shipped o).
Definition set_status (v : option bool) (o : t) : t :=
  mk (id o) (product_id o) (customer_id o) (quantity o) (address o) (phone o)
     (date o) v (date_shipped o).
Definition set_date_shipped (v : option Py.datetime) (o : t) : t :=
  mk (id o) (product_id o) (customer_id o) (quantity o) (address o) (phone o)
     (date o) (status o) v.
End Order.

(* ================================================================== *)
(** * Request and response schemas ([schemas.py]) *)
(* ================================================================== *)

(** One field of a partial-update payload.  Pydantic records which fields
    the request carried, so a field that was left out ([Unset]) differs
    from one sent as [null] ([Provided None]). *)
Inductive field (A : Type) : Type :=
| Unset
| Provided (value : option A).
Arguments Unset {A}.
Arguments Provided {A} value.

(** The entry of [.dict()] for a field: every field of an update schema
    defaults to [None]. *)
Definition dict_value {A} (f : field A) : option A :=
  match f with
  | Unset => None
  | Provided v => v
  end.

(** [setattr(row, key, value)] for each key of [.dict(exclude_unset=True)]:
    a field that was left out does not appear among the keys. *)
Definition setattr_if_set {A R} (set : option A -> R -> R) (f : field A) (row : R) : R :=
  match f with
  | Unset => row
  | Provided v => set v row
  end.

Module ProductUpdate.
Record t : Type := mk {
  name : field string;
  price : field float;
  category_id : field Z;
  description : field string;
  image : field string;
  is_sale : field bool;
  sale_price : field float
}.
End ProductUpdate.

Module CustomerCreate.
Record t : Type := mk {
  first_name : string;
  last_name : string;
  phone : option string;
  email : string;
  password : string
}.
End CustomerCreate.

Module OrderCreate.
Record t : Type := mk {
  product_id : Z;
  customer_id : Z;
  quantity : Z;
  address : option string;
  phone : option string
}.
End OrderCreate.

Module OrderUpdate.
Record t : Type := mk {
  product_id : field Z;
  customer_id : field Z;
  quantity : field Z;
  address : field string;
  phone : field string;
  status : field bool
}.
End OrderUpdate.

Module OrderResponse.
Record t : Type := mk {
  id : Z;
  product_id : option Z;
  customer_id : option Z;
  quantity : option Z;
  address : option string;
  phone : option string;
  date_ordered : option string;
  status : option bool;
  date_shipped : option string;
  amount_paid : float;
  customer_email : option string
}.
End OrderResponse.

Module OrderItem.
Record t : Type := mk {
  product_name : string;
  quantity : option Z;
  price : float
}.
End OrderItem.

(** The dictionary that [enrich_order_details] builds, which is the shape
    of [DjangoOrderResponse]. *)
Module DjangoOrderResponse.
Record t : Type := mk {
  id : Z;
  full_name : string;
  email : option string;
  shipping_address : string;
  amount_paid : float;
  date_ordered : option string;
  shipped : option bool;
  date_shipped : option string;
  items_list : list OrderItem.t
}.
End DjangoOrderResponse.

Module ProductAnalysisResponse.
Record t : Type := mk {
  product_id : Z;
  product_name : string;
  total_revenue : float;
  total_quantity_sold : option Z
}.
End ProductAnalysisResponse.

(* ================================================================== *)
(** * The store *)
(* ================================================================== *)

(** The three tables the endpoints read and write, each a list of rows in
    scan order (categories are only written by the sample-data endpoint,
    which is left out).  Foreign keys are not enforced: the code is
    written for orders whose product or customer is gone. *)
Record DB : Type := mkDB {
  store_product : list Product.t;
  store_customer : list Customer.t;
  store_order : list Order.t
}.

(** SQL equality of a nullable column with a value: [NULL] equals
    nothing. *)
Definition col_eq_int (col : option Z) (v : Z) : bool :=
  match col with
  | Some a => (a =? v)%Z
  | None => false
  end.

Definition col_eq_bool (col : option bool) (v : bool) : bool :=
  match col with
  | Some a => Bool.eqb a v
  | None => false
  end.

Definition col_eq_str (col : option string) (v : string) : bool :=
  match col with
  | Some a => String.eqb a v
  | None => false
  end.

(** [pk == v] with [v] read from a nullable column: for [None] the filter
    is [pk IS NULL], which no row satisfies. *)
Definition pk_eq (pk : Z) (v : option Z) : bool :=
  match v with
  | Some b => (pk =? b)%Z
  | None => false
  end.

(** [db.query(Product).filter(Product.id == v).first()] *)
Definition product_by_id (db : DB) (v : option Z) : option Product.t :=
  find (fun p => pk_eq (Product.id p) v) (store_product db).

(** [db.query(Customer).filter(Customer.id == v).first()] *)
Definition customer_by_id (db : DB) (v : option Z) : option Customer.t :=
  find (fun c => pk_eq (Customer.id c) v) (store_customer db).

(** [db.query(Customer).filter(Customer.email == v).first()] *)
Definition customer_by_email (db : DB) (v : string) : option Customer.t :=
  find (fun c => col_eq_str (Customer.email c) v) (store_customer db).

(** [db.query(Order).filter(Order.id == v).first()] *)
Definition order_by_id (db : DB) (v : Z) : option Order.t :=
  find (fun o => (Order.id o =? v)%Z) (store_order db).

(** [db.query(Order).filter(Order.product_id == v).all()] *)
Definition orders_of_product (db : DB) (v : Z) : list Order.t :=
  filter (fun o => col_eq_int (Order.product_id o) v) (store_order db).

(** [db.query(Order).filter(Order.status == v).all()] *)
Definition orders_with_status (db : DB) (v : bool) : list Order.t :=
  filter (fun o => col_eq_bool (Order.status o) v) (store_order db).

(** The key the store gives a row inserted without one: one more than the
    largest key in the table. *)
Definition autoincrement (ids : list Z) : Z := 1 + fold_right Z.max 0 ids.

(** A column default, used at [INSERT] for an attribute that is [None]. *)
Definition or_default {A} (v : option A) (default : A) : option A :=
  match v with
  | Some a => Some a
  | None => Some default
  end.

(** [UPDATE store_order ... WHERE id = ?] with the attributes of [row]. *)
Definition write_order (row : Order.t) (db : DB) : DB :=
  mkDB (store_product db) (store_customer db)
       (map (fun o => if (Order.id o =? Order.id row)%Z then row else o)
            (store_order db)).

(** [UPDATE store_product ... WHERE id = ?] with the attributes of [row]. *)
Definition write_product (row : Product.t) (db : DB) : DB :=
  mkDB (map (fun p => if (Product.id p =? Product.id row)%Z then row else p)
            (store_product db))
       (store_customer db) (store_order db).

(** [ORDER BY id DESC], by insertion. *)
Fixpoint insert_id_desc (o : Order.t) (sorted : list Order.t) : list Order.t :=
  match sorted with
  | [] => [o]
  | o' :: rest =>
      if (Order.id o' <=? Order.id o)%Z then o :: sorted
      else o' :: insert_id_desc o rest
  end.

Definition order_by_id_desc (rows : list Order.t) : list Order.t :=
  fold_right insert_id_desc [] rows.

(* ================================================================== *)
(** * Pricing and enrichment ([main.py], lines 181-205) *)
(* ================================================================== *)

(** The pricing conditional
    [product.sale_price if product.is_sale and product.sale_price > 0
     else product.price],
    which [main.py] writes out at lines 188, 254, 323 and 339.  The
    comparison is only evaluated when [is_sale] is truthy. *)
Definition unit_price (product : Product.t) : result (option float) :=
  if truthy (Product.is_sale product) then
    positive <- gt_zero (Product.sale_price product) ;;
    if positive then ret (Product.sale_price product)
    else ret (Product.price product)
  else ret (Product.price product).

(** The pricing rule in the specification's words, on pricing fields that
    hold values: the sale price when the product is on sale and the sale
    price is positive, the list price otherwise. *)
Definition effective_price (is_sale : bool) (sale_price price : float) : float :=
  if is_sale && PrimFloat.ltb 0%float sale_price then sale_price else price.

Definition enrich_order_details (order : Order.t) (db : DB)
  : result (option DjangoOrderResponse.t) :=
  let product := product_by_id db (Order.product_id order) in
  let customer := customer_by_id db (Order.customer_id order) in
  match product, customer with
  | Some product, Some customer =>
      price <- unit_price product ;;
      fprice <- float_ price ;;
      amount_paid <- mul_float_int fprice (Order.quantity order) ;;
      ret (Some (DjangoOrderResponse.mk
        (Order.id order)
        (strip (str_opt (Customer.first_name customer) ++ " "
                ++ str_opt (Customer.last_name customer)))
        (Customer.email customer)
        (str_or (Order.address order) "No address provided")
        amount_paid
        (option_map strftime_Ymd (Order.date order))
        (Order.status order)
        (option_map strftime_YmdHM (Order.date_shipped order))
        [OrderItem.mk (Product.name product) (Order.quantity order) fprice]))
  | _, _ => ret None
  end.

(** [[enrich_order_details(order, db) for order in orders]] followed by
    [[res for res in response if res is not None]]. *)
Fixpoint drop_None {A} (l : list (option A)) : list A :=
  match l with
  | [] => []
  | Some a :: l' => a :: drop_None l'
  | None :: l' => drop_None l'
  end.

Definition enrich_all (orders : list Order.t) (db : DB)
  : result (list DjangoOrderResponse.t) :=
  response <- mapM (fun order => enrich_order_details order db) orders ;;
  ret (drop_None response).

(* ================================================================== *)
(** * Product and customer endpoints *)
(* ================================================================== *)

(** [db.add(Product(id=product_id, **product.dict()))] and [commit].  The
    session leaves an attribute that is [None] out of the [INSERT] when
    its column has a default, so the default fills it, and writes [NULL]
    when it has none; [name] has no default and is declared
    [nullable=False], so a missing name is rejected. *)
Definition insert_product (id : Z) (values : ProductUpdate.t) (db : DB)
  : DB * result Product.t :=
  match dict_value (ProductUpdate.name values) with
  | None => (db, raise IntegrityError)
  | Some name =>
      let row := Product.mk id name
        (or_default (dict_value (ProductUpdate.price values)) 0%float)
        (or_default (dict_value (ProductUpdate.category_id values)) 1)
        (or_default (dict_value (ProductUpdate.description values)) "")
        (dict_value (ProductUpdate.image values))
        (or_default (dict_value (ProductUpdate.is_sale values)) false)
        (or_default (dict_value (ProductUpdate.sale_price values)) 0%float) in
      (mkDB (store_product db ++ [row]) (store_customer db) (store_order db),
       ret row)
  end.

(** The value [setattr] leaves in a nullable column after the loop over
    [.dict(exclude_unset=True)]: the payload's value when the field was
    sent, the current one when it was left out. *)
Definition updated {A} (f : field A) (current : option A) : option A :=
  match f with
  | Unset => current
  | Provided v => v
  end.

(** The loop [for key, value in product.dict(exclude_unset=True).items():
    setattr(db_product, key, value)] and the [commit] after it: setting
    [name] to [None] breaks [nullable=False] when the row is written. *)
Definition set_product_fields (values : ProductUpdate.t) (p : Product.t)
  : result Product.t :=
  name <- match ProductUpdate.name values with
          | Unset => ret (Product.name p)
          | Provided (Some n) => ret n
          | Provided None => raise IntegrityError
          end ;;
  ret (Product.mk (Product.id p) name
    (updated (ProductUpdate.price values) (Product.price p))
    (updated (ProductUpdate.category_id values) (Product.category_id p))
    (updated (ProductUpdate.description values) (Product.description p))
    (updated (ProductUpdate.image values) (Product.image p))
    (updated (ProductUpdate.is_sale values) (Product.is_sale p))
    (updated (ProductUpdate.sale_price values) (Product.sale_price p))).

(** [PUT /products/{product_id}] *)
Definition update_product (product_id : Z) (product : ProductUpdate.t) (db : DB)
  : DB * result Product.t :=
  match product_by_id db (Some product_id) with
  | None => insert_product product_id product db
  | Some db_product =>
      match set_product_fields product db_product with
      | inl e => (db, inl e)
      | inr row => (write_product row db, ret row)
      end
  end.

(** [POST /customers].  The insert comes after a lookup that found no row
    with the email, so the [unique=True] of the column is met. *)
Definition create_customer (customer : CustomerCreate.t) (db : DB)
  : DB * result Customer.t :=
  match customer_by_email db (CustomerCreate.email customer) with
  | Some existing => (db, ret existing)
  | None =>
      let db_customer := Customer.mk
        (autoincrement (map Customer.id (store_customer db)))
        (Some (CustomerCreate.first_name customer))
        (Some (CustomerCreate.last_name customer))
        (CustomerCreate.phone customer)
        (Some (CustomerCreate.email customer))
        (Some (CustomerCreate.password customer)) in
      (mkDB (store_product db) (store_customer db ++ [db_customer])
            (store_order db),
       ret db_customer)
  end.

(* ================================================================== *)
(** * Order endpoints ([main.py], lines 211-308) *)
(* ================================================================== *)

(** [GET /orders]: [skip] and [limit] cut the page before enrichment.
    The source takes any [int] for them and hands it to the engine; they
    are natural numbers here, so this is the endpoint on a non-negative
    [skip] and [limit] only.  What a negative offset or limit does is the
    engine's (one takes it as no limit, another refuses the query) and is
    not modelled. *)
Definition get_all_orders_page (skip limit : nat) (shipped : option bool) (db : DB)
  : list Order.t :=
  let rows :=
    match shipped with
    | Some v => orders_with_status db v
    | None => store_order db
    end in
  firstn limit (skipn skip (order_by_id_desc rows)).

Definition get_all_orders (skip limit : nat) (shipped : option bool) (db : DB)
  : result (list DjangoOrderResponse.t) :=
  enrich_all (get_all_orders_page skip limit shipped db) db.

(** [GET /orders/{order_id}] *)
Definition get_order (order_id : Z) (db : DB) : result DjangoOrderResponse.t :=
  match order_by_id db order_id with
  | None => raise (HTTPException 404 "Order not found")
  | Some order =>
      enriched <- enrich_order_details order db ;;
      match enriched with
      | None =>
          raise (HTTPException 404
            "Associated product or customer not found for this order")
      | Some view => ret view
      end
  end.

(** [POST /orders].  The row is committed before the amount is computed,
    so an exception in the pricing leaves the new order in the store.
    This is the endpoint on a payload whose integers the store's
    [Integer] columns hold ([fits_integer_column]) and on a customer
    whose email is on record: an integer too large for the engine makes
    the query or the commit raise, and [OrderResponse] refuses an email
    of [None]; neither failure is modelled. *)
Definition create_order (today : Py.date) (order : OrderCreate.t) (db : DB)
  : DB * result OrderResponse.t :=
  match product_by_id db (Some (OrderCreate.product_id order)) with
  | None =>
      (db, raise (HTTPException 404
         ("Product with ID " ++ str_int (OrderCreate.product_id order)
          ++ " not found")))
  | Some product =>
      match customer_by_id db (Some (OrderCreate.customer_id order)) with
      | None => (db, raise (HTTPException 404 "Customer not found"))
      | Some customer =>
          let db_order := Order.mk
            (autoincrement (map Order.id (store_order db)))
            (Some (OrderCreate.product_id order))
            (Some (OrderCreate.customer_id order))
            (Some (OrderCreate.quantity order))
            (or_default (OrderCreate.address order) "")
            (or_default (OrderCreate.phone order) "")
            (Some today)
            (Some false)
            None in
          (mkDB (store_product db) (store_customer db)
                (store_order db ++ [db_order]),
           price <- unit_price product ;;
           fprice <- float_ price ;;
           amount_paid <- mul_float_int fprice (Order.quantity db_order) ;;
           ret (OrderResponse.mk
             (Order.id db_order) (Order.product_id db_order)
             (Order.customer_id db_order) (Order.quantity db_order)
             (Order.address db_order) (Order.phone db_order)
             (option_map isoformat_date (Order.date db_order))
             (Order.status db_order)
             (option_map isoformat (Order.date_shipped db_order))
             amount_paid (Customer.email customer)))
      end
  end.

(** The branch of the update loop for the key ["status"] (lines 273-278):
    the shipping date is stamped or cleared, then the status is set. *)
Definition set_status_field (now : Py.datetime) (value : option bool) (o : Order.t)
  : Order.t :=
  let o :=
    if truthy value && negb (is_not_None (Order.date_shipped o))
    then Order.set_date_shipped (Some now) o
    else if negb (truthy value) then Order.set_date_shipped None o
    else o in
  Order.set_status value o.

(** The whole loop over [order.dict(exclude_unset=True)], in the order in
    which [OrderUpdate] declares its fields. *)
Definition set_order_fields (now : Py.datetime) (order : OrderUpdate.t)
  (db_order : Order.t) : Order.t :=
  let o := setattr_if_set Order.set_product_id (OrderUpdate.product_id order) db_order in
  let o := setattr_if_set Order.set_customer_id (OrderUpdate.customer_id order) o in
  let o := setattr_if_set Order.set_quantity (OrderUpdate.quantity order) o in
  let o := setattr_if_set Order.set_address (OrderUpdate.address order) o in
  let o := setattr_if_set Order.set_phone (OrderUpdate.phone order) o in
  setattr_if_set (set_status_field now) (OrderUpdate.status order) o.

(** [PUT /orders/{order_id}]: the changes are committed, then the updated
    row is enriched against the updated store. *)
Definition update_order (now : Py.datetime) (order_id : Z) (order : OrderUpdate.t)
  (db : DB) : DB * result (option DjangoOrderResponse.t) :=
  match order_by_id db order_id with
  | None => (db, raise (HTTPException 404 "Order not found"))
  | Some db_order =>
      let db_order := set_order_fields now order db_order in
      let db := write_order db_order db in
      (db, enrich_order_details db_order db)
  end.

(** [GET /orders-shipped] and [GET /orders-unshipped] *)
Definition get_orders_shipped (db : DB) : result (list DjangoOrderResponse.t) :=
  enrich_all (orders_with_status db true) db.

Definition get_orders_unshipped (db : DB) : result (list DjangoOrderResponse.t) :=
  enrich_all (orders_with_status db false) db.

(* ================================================================== *)
(** * Analysis endpoints ([main.py], lines 314-341) *)
(* ================================================================== *)

(** The body of the revenue loop (lines 323-324, 339-340). *)
Definition add_revenue (product : Product.t) (total_revenue : float)
  (order : Order.t) : result float :=
  price <- unit_price product ;;
  line <- mul_int_float (Order.quantity order) price ;;
  ret (PrimFloat.add total_revenue line).

(** The body of the loop of lines 322-325, on both accumulators. *)
Definition add_revenue_and_quantity (product : Product.t) (acc : float * Z)
  (order : Order.t) : result (float * Z) :=
  total_revenue <- add_revenue product (fst acc) order ;;
  total_quantity <- add_int (snd acc) (Order.quantity order) ;;
  ret (total_revenue, total_quantity).

(** [GET /analysis/revenue/{product_id}] *)
Definition get_total_revenue_per_product (product_id : Z) (db : DB)
  : result ProductAnalysisResponse.t :=
  match product_by_id db (Some product_id) with
  | None =>
      raise (HTTPException 404
        ("Product with ID " ++ str_int product_id ++ " not found"))
  | Some product =>
      let orders := orders_of_product db product_id in
      totals <- foldM (add_revenue_and_quantity product) orders (0%float, 0) ;;
      ret (ProductAnalysisResponse.mk product_id (Product.name product)
             (fst totals) (Some (snd totals)))
  end.

(** [GROUP BY product_id]: one group per distinct value, [NULL] included,
    listed by first appearance. *)
Definition opt_int_eqb (a b : option Z) : bool :=
  match a, b with
  | Some x, Some y => (x =? y)%Z
  | None, None => true
  | _, _ => false
  end.

Fixpoint group_keys (keys : list (option Z)) : list (option Z) :=
  match keys with
  | [] => []
  | k :: rest => k :: filter (fun k' => negb (opt_int_eqb k k')) (group_keys rest)
  end.

(** [SUM(quantity)]: [NULL] values are skipped, and the sum of no value is
    [NULL]. *)
Fixpoint sql_sum (values : list (option Z)) : option Z :=
  match values with
  | [] => None
  | v :: rest =>
      match v, sql_sum rest with
      | None, s => s
      | Some a, None => Some a
      | Some a, Some b => Some (a + b)
      end
  end.

(** The rows [(product_id, total_quantity)] of the grouped query. *)
Definition quantity_by_product (orders : list Order.t) : list (option Z * option Z) :=
  map (fun k =>
         (k, sql_sum (map Order.quantity
                        (filter (fun o => opt_int_eqb (Order.product_id o) k) orders))))
      (group_keys (map Order.product_id orders)).

Section Engine.

(** [ORDER BY SUM(quantity) DESC] is the engine's: which of several groups
    with the same total comes first, and where a [NULL] total is placed,
    is not fixed by the query. *)
Variable order_by_total_desc : list (option Z * option Z) -> list (option Z * option Z).

(** The grouped query of line 330, with [.first()]. *)
Definition top_selling (db : DB) : option (option Z * option Z) :=
  hd_error (order_by_total_desc (quantity_by_product (store_order db))).

(** [GET /analysis/highest-selling] *)
Definition get_highest_selling_product (db : DB)
  : result ProductAnalysisResponse.t :=
  match top_selling db with
  | None => raise (HTTPException 404 "No sales data found")
  | Some (top_product_id, total_quantity) =>
      match product_by_id db top_product_id with
      | None =>
          raise (HTTPException 404
            ("Product with ID " ++ str_opt_int top_product_id ++ " not found"))
      | Some product =>
          let orders := orders_of_product db (Product.id product) in
          total_revenue <- foldM (add_revenue product) orders 0%float ;;
          ret (ProductAnalysisResponse.mk (Product.id product)
                 (Product.name product) total_revenue total_quantity)
      end
  end.

End Engine.

(** An engine that sorts by insertion, keeps the groups of equal total in
    their order of first appearance and puts [NULL] totals last. *)
Definition total_geb (a b : option Z * option Z) : bool :=
  match snd a, snd b with
  | Some x, Some y => (y <=? x)%Z
  | Some _, None => true
  | None, Some _ => false
  | None, None => true
  end.

Fixpoint insert_total_desc (r : option Z * option Z)
  (sorted : list (option Z * option Z)) : list (option Z * option Z) :=
  match sorted with
  | [] => [r]
  | r' :: rest =>
      if total_geb r r' then r :: sorted else r' :: insert_total_desc r rest
  end.

Definition insertion_order_by_total_desc (rows : list (option Z * option Z))
  : list (option Z * option Z) :=
  fold_right insert_total_desc [] rows.

(* ================================================================== *)
(** * The remaining endpoints of [main.py] *)
(* ================================================================== *)

(** [ProductBase], which [ProductCreate] inherits unchanged: only
    [description] and [image] admit [None]. *)
Module ProductCreate.
Record t : Type := mk {
  name : string;
  price : float;
  category_id : Z;
  description : option string;
  image : option string;
  is_sale : bool;
  sale_price : float
}.
End ProductCreate.

Module MessageResponse.
Record t : Type := mk { message : string }.
End MessageResponse.

(** [GET /products/{product_id}] *)
Definition get_product (product_id : Z) (db : DB) : result Product.t :=
  match product_by_id db (Some product_id) with
  | None => raise (HTTPException 404 "Product not found")
  | Some product => ret product
  end.

(** [POST /products]: the store gives the key; a [description] of [None]
    takes the column default. *)
Definition create_product (product : ProductCreate.t) (db : DB)
  : DB * result Product.t :=
  let db_product := Product.mk
    (autoincrement (map Product.id (store_product db)))
    (ProductCreate.name product)
    (Some (ProductCreate.price product))
    (Some (ProductCreate.category_id product))
    (or_default (ProductCreate.description product) "")
    (ProductCreate.image product)
    (Some (ProductCreate.is_sale product))
    (Some (ProductCreate.sale_price product)) in
  (mkDB (store_product db ++ [db_product]) (store_customer db) (store_order db),
   ret db_product).

(** [DELETE /products/{product_id}]: the row goes, nothing else is
    touched. *)
Definition delete_product (product_id : Z) (db : DB)
  : DB * result MessageResponse.t :=
  match product_by_id db (Some product_id) with
  | None => (db, raise (HTTPException 404 "Product not found"))
  | Some db_product =>
      (mkDB (filter (fun p => negb (Product.id p =? Product.id db_product))
                    (store_product db))
            (store_customer db) (store_order db),
       ret (MessageResponse.mk
              ("Product " ++ str_int product_id ++ " deleted successfully")))
  end.

(** [GET /customers] *)
Definition get_customers (db : DB) : list Customer.t := store_customer db.

(** [DELETE /orders/{order_id}] *)
Definition delete_order (order_id : Z) (db : DB)
  : DB * result MessageResponse.t :=
  match order_by_id db order_id with
  | None => (db, raise (HTTPException 404 "Order not found"))
  | Some db_order =>
      (mkDB (store_product db) (store_customer db)
            (filter (fun o => negb (Order.id o =? Order.id db_order))
                    (store_order db)),
       ret (MessageResponse.mk
              ("Order " ++ str_int order_id ++ " deleted successfully")))
  end.

(** ** The sample-data endpoint (lines 347-374) *)

Module Category.
Record t : Type := mk { id : Z; name : string }.
End Category.

(** [POST /create-sample-data], on the category table and the three
    others.  Each [commit] stands: when the customer insert breaks the
    [unique=True] of [email], the category written before it stays.  The
    two prices are the binary64 values nearest to 29.99 and 49.99, as in
    Python. *)
#[local] Set Warnings "-inexact-float".
Definition create_sample_data (today : Py.date) (now : Py.datetime)
  (store_category : list Category.t) (db : DB)
  : (list Category.t * DB) * result MessageResponse.t :=
  match store_order db with
  | _ :: _ =>
      ((store_category, db),
       ret (MessageResponse.mk "Sample data already exists."))
  | [] =>
      let sample_category :=
        Category.mk (autoincrement (map Category.id store_category))
                    "Sample Category" in
      let store_category := (store_category ++ [sample_category])%list in
      match customer_by_email db "john.doe@example.com" with
      | Some _ => ((store_category, db), raise IntegrityError)
      | None =>
          let sample_customer := Customer.mk
            (autoincrement (map Customer.id (store_customer db)))
            (Some "John") (Some "Doe") None (Some "john.doe@example.com")
            (Some "password") in
          let prod1 := Product.mk
            (autoincrement (map Product.id (store_product db)))
            "Sample Unshipped Product" (Some 29.99%float)
            (Some (Category.id sample_category)) (Some "") None (Some false)
            (Some 0%float) in
          let prod2 := Product.mk
            (autoincrement (map Product.id (store_product db ++ [prod1])))
            "Sample Shipped Product" (Some 49.99%float)
            (Some (Category.id sample_category)) (Some "") None (Some false)
            (Some 0%float) in
          let order1 := Order.mk
            (autoincrement (map Order.id (store_order db)))
            (Some (Product.id prod1)) (Some (Customer.id sample_customer))
            (Some 2) (Some "123 Main St") (Some "") (Some today) (Some false)
            None in
          let order2 := Order.mk
            (autoincrement (map Order.id (store_order db ++ [order1])))
            (Some (Product.id prod2)) (Some (Customer.id sample_customer))
            (Some 1) (Some "456 Oak Ave") (Some "") (Some today) (Some true)
            (Some now) in
          ((store_category,
            mkDB (store_product db ++ [prod1; prod2])
                 (store_customer db ++ [sample_customer])
                 (store_order db ++ [order1; order2])),
           ret (MessageResponse.mk "Sample data created successfully!"))
      end
  end.

(** ** The exception handlers (lines 380-386) *)

Module JSONResponse.
Record t : Type := mk { status_code : Z; detail : string }.
End JSONResponse.

Definition not_found_handler (exc : exn) : JSONResponse.t :=
  JSONResponse.mk 404 "Resource not found".

Definition internal_server_error_handler (exc : exn) : JSONResponse.t :=
  JSONResponse.mk 500 "Internal server error".

(** What the application answers when an endpoint raises.  An
    [HTTPException] goes to the handler registered for its status code
    when there is one, here the one for 404, and is otherwise answered
    with its own status and detail; any other exception goes to the
    handler registered for 500. *)
Definition handle_exception (exc : exn) : JSONResponse.t :=
  match exc with
  | HTTPException status_code detail =>
      if status_code =? 404 then not_found_handler exc
      else JSONResponse.mk status_code detail
  | TypeError | IntegrityError => internal_server_error_handler exc
  end.

(** ** Runs of write requests *)

(** The requests that change the store, with the clock value each one
    reads. *)
Inductive request : Type :=
| PostProduct (product : ProductCreate.t)
| PutProduct (product_id : Z) (product : ProductUpdate.t)
| DeleteProduct (product_id : Z)
| PostCustomer (customer : CustomerCreate.t)
| PostOrder (today : Py.date) (order : OrderCreate.t)
| PutOrder (now : Py.datetime) (order_id : Z) (order : OrderUpdate.t)
| DeleteOrder (order_id : Z).

(** The store a request leaves behind, whether it answers or raises. *)
Definition serve (r : request) (db : DB) : DB :=
  match r with
  | PostProduct product => fst (create_product product db)
  | PutProduct product_id product => fst (update_product product_id product db)
  | DeleteProduct product_id => fst (delete_product product_id db)
  | PostCustomer customer => fst (create_customer customer db)
  | PostOrder today order => fst (create_order today order db)
  | PutOrder now order_id order => fst (update_order now order_id order db)
  | DeleteOrder order_id => fst (delete_order order_id db)
  end.

Definition serve_all (requests : list request) (db : DB) : DB :=
  fold_left (fun db r => serve r db) requests db.

(** [POST /create-sample-data] is the one other endpoint that writes; it
    writes the category table as well, so a run that includes it goes
    over that table and the store. *)
Inductive write : Type :=
| Request (r : request)
| PostSampleData (today : Py.date) (now : Py.datetime).

Definition serve_write (w : write) (tables : list Category.t * DB)
  : list Category.t * DB :=
  match w with
  | Request r => (fst tables, serve r (snd tables))
  | PostSampleData today now =>
      fst (create_sample_data today now (fst tables) (snd tables))
  end.

Definition serve_writes (writes : list write) (tables : list Category.t * DB)
  : list Category.t * DB :=
  fold_left (fun tables w => serve_write w tables) writes tables.

(* ================================================================== *)
(** * Predicates of the specification and sample data *)
(* ================================================================== *)

(** The order's product and customer references both resolve. *)
Definition resolves (db : DB) (order : Order.t) : bool :=
  is_not_None (product_by_id db (Order.product_id order))
  && is_not_None (customer_by_id db (Order.customer_id order)).

(** The shipping invariant of the data model:
    [(order.status == true) == (order.date_shipped is not None)]. *)
Definition shipped_iff_dated (order : Order.t) : Prop :=
  Order.status order = Some true <-> Order.date_shipped order <> None.

(** A run of requests against [PUT /orders/{order_id}], each with the
    time at which it is served. *)
Definition run_updates (requests : list (Py.datetime * Z * OrderUpdate.t)) (db : DB)
  : DB :=
  fold_left (fun db r => fst (update_order (fst (fst r)) (snd (fst r)) (snd r) db))
            requests db.

(** A field of a payload applied to a column: overwritten when the field
    was sent, left as it was otherwise. *)
Definition field_applied {A} (f : field A) (before after : option A) : Prop :=
  match f with
  | Unset => after = before
  | Provided v => after = v
  end.

(** A field of a payload used at creation: the payload's value when it
    has one, the column default otherwise. *)
Definition field_inserted {A} (f : field A) (default after : option A) : Prop :=
  match dict_value f with
  | Some v => after = Some v
  | None => after = default
  end.

(** Revenue and quantity in the specification's words, over the
    quantities of the orders in query order: the running float sum of
    quantity times price, and the integer sum of the quantities. *)
Definition add_line (price : float) (acc : float) (q : Z) : float :=
  PrimFloat.add acc (PrimFloat.mul (float_of_int q) price).

Definition revenue_of (price : float) (quantities : list Z) : float :=
  fold_left (add_line price) quantities 0%float.

Definition quantity_of (quantities : list Z) : Z :=
  fold_left Z.add quantities 0.

(** What [ORDER BY SUM(quantity) DESC] promises of an engine: the rows
    come back rearranged, and a total that comes earlier is not smaller
    than one that comes later. *)
Definition total_ge (a b : option Z * option Z) : Prop :=
  forall x y, snd a = Some x -> snd b = Some y -> y <= x.

Definition sorts_by_total_desc
  (engine : list (option Z * option Z) -> list (option Z * option Z)) : Prop :=
  forall rows, Permutation (engine rows) rows /\ StronglySorted total_ge (engine rows).

(** The orders of one group of the grouped query. *)
Definition group_of (k : option Z) (orders : list Order.t) : list Order.t :=
  filter (fun o => opt_int_eqb (Order.product_id o) k) orders.

(** The endpoint fails with NotFound: it raises an [HTTPException] with
    status 404. *)
Definition fails_not_found {A} (r : result A) : Prop :=
  exists detail, r = raise (HTTPException 404 detail).

Module Sample.

Definition noon : Py.datetime := Py.mkdatetime (Py.mkdate 2024 5 17) 12 0 0 0.
Definition later : Py.datetime := Py.mkdatetime (Py.mkdate 2024 5 18) 9 30 0 0.
Definition day : Py.date := Py.mkdate 2024 5 17.

(** The product of the specification's example: list price 100, on sale
    at 80. *)
Definition mug : Product.t :=
  Product.mk 1 "Mug" (Some 100%float) (Some 1) (Some "") None (Some true)
             (Some 80%float).

Definition pen : Product.t :=
  Product.mk 2 "Pen" (Some 2.5%float) (Some 1) (Some "") None (Some false)
             (Some 0%float).

(** A product nobody has ordered. *)
Definition lamp : Product.t :=
  Product.mk 3 "Lamp" (Some 30%float) (Some 1) (Some "") None (Some false)
             (Some 0%float).

Definition ann : Customer.t :=
  Customer.mk 1 (Some "Ann") (Some "Lee") None (Some "ann@example.com")
              (Some "secret").

(** Three mugs for Ann, not shipped. *)
Definition order1 : Order.t :=
  Order.mk 1 (Some 1) (Some 1) (Some 3) (Some "1 Main St") (Some "") (Some day)
           (Some false) None.

(** Five pens for Ann, shipped. *)
Definition order2 : Order.t :=
  Order.mk 2 (Some 2) (Some 1) (Some 5) (Some "") (Some "") (Some day)
           (Some true) (Some noon).

(** An order whose product is gone. *)
Definition orphan : Order.t :=
  Order.mk 3 (Some 99) (Some 1) (Some 4) (Some "") (Some "") (Some day)
           (Some false) None.

Definition shop : DB := mkDB [mug; pen; lamp] [ann] [order1; order2; orphan].

Definition empty : DB := mkDB [] [] [].

Definition ship : OrderUpdate.t :=
  OrderUpdate.mk Unset Unset Unset Unset Unset (Provided (Some true)).

Definition unship : OrderUpdate.t :=
  OrderUpdate.mk Unset Unset Unset Unset Unset (Provided (Some false)).

(** A payload that points the order at product 1. *)
Definition repoint : OrderUpdate.t :=
  OrderUpdate.mk (Provided (Some 1)) Unset Unset Unset Unset Unset.

(** A product payload that only carries a price. *)
Definition price_only : ProductUpdate.t :=
  ProductUpdate.mk Unset (Provided (Some 9.5%float)) Unset Unset Unset Unset Unset.

Definition named : ProductUpdate.t :=
  ProductUpdate.mk (Provided (Some "Cup")) (Provided (Some 9.5%float)) Unset
                   Unset Unset Unset Unset.

Definition bob : CustomerCreate.t :=
  CustomerCreate.mk "Bob" "Ray" None "bob@example.com" "pw".

End Sample.

(* ================================================================== *)
(** * Further predicates and sample data *)
(* ================================================================== *)

(** Primary keys are unique in each table. *)
Definition keys_unique (db : DB) : Prop :=
  NoDup (map Product.id (store_product db))
  /\ NoDup (map Customer.id (store_customer db))
  /\ NoDup (map Order.id (store_order db)).

(** The emails on record, [NULL] left aside as the uniqueness constraint
    leaves it. *)
Definition emails (db : DB) : list string :=
  drop_None (map Customer.email (store_customer db)).

(** Non-increasing order of a list of ids. *)
Definition descending (ids : list Z) : Prop := Sorted Z.ge ids.



Module More.

(** A product on sale whose sale price was set to null. *)
Definition broken : Product.t :=
  Product.mk 4 "Broken" (Some 10%float) (Some 1) (Some "") None (Some true) None.

Definition shop : DB :=
  mkDB [Sample.mug; Sample.pen; Sample.lamp; broken] [Sample.ann]
       [Sample.order1; Sample.order2; Sample.orphan].

Definition three_mugs : OrderCreate.t := OrderCreate.mk 1 1 3 None None.


Definition readdress : OrderUpdate.t :=
  OrderUpdate.mk Unset Unset (Provided (Some 7)) (Provided (Some "2 Side St"))
                 Unset (Provided (Some true)).

Definition kettle : ProductCreate.t :=
  ProductCreate.mk "Kettle" 25%float 1 None None false 0%float.

Definition reprice : ProductUpdate.t :=
  ProductUpdate.mk Unset (Provided (Some 120%float)) Unset Unset Unset
                   (Provided (Some false)) Unset.

(** A store in which the sample customer's email is taken. *)
Definition john : Customer.t :=
  Customer.mk 1 (Some "Johnny") (Some "Doe") None (Some "john.doe@example.com")
              (Some "pw").

Definition taken : DB := mkDB [] [john] [].

End More.

(* ================================================================== *)
(** * The order update rule *)
(* ================================================================== *)

(** The fields the loop sets before ["status"] leave the status and the
    shipping date alone. *)
Lemma set_order_fields_status_unset now order o :
  OrderUpdate.status order = Unset ->
  Order.status (set_order_fields now order o) = Order.status o
  /\ Order.date_shipped (set_order_fields now order o) = Order.date_shipped o.
Proof.
  intros Hst. unfold set_order_fields. rewrite Hst.
  destruct (OrderUpdate.product_id order), (OrderUpdate.customer_id order),
    (OrderUpdate.quantity order), (OrderUpdate.address order),
    (OrderUpdate.phone order); split; reflexivity.
Qed.

Lemma set_order_fields_status_set now order o value :
  OrderUpdate.status order = Provided value ->
  Order.status (set_order_fields now order o) = value
  /\ Order.date_shipped (set_order_fields now order o)
     = if truthy value
       then match Order.date_shipped o with
            | Some stamped => Some stamped
            | None => Some now
            end
       else None.
Proof.
  intros Hst. unfold set_order_fields. rewrite Hst.
  destruct o as [i pid cid q a ph d st [stamped|]];
    destruct (OrderUpdate.product_id order), (OrderUpdate.customer_id order),
      (OrderUpdate.quantity order), (OrderUpdate.address order),
      (OrderUpdate.phone order);
    cbn; unfold set_status_field; cbn;
    destruct (truthy value); cbn; split; reflexivity.
Qed.

Lemma set_order_fields_id now order o :
  Order.id (set_order_fields now order o) = Order.id o.
Proof.
  unfold set_order_fields, set_status_field.
  destruct o as [i pid cid q a ph d st [stamped|]];
    destruct (OrderUpdate.product_id order), (OrderUpdate.customer_id order),
      (OrderUpdate.quantity order), (OrderUpdate.address order),
      (OrderUpdate.phone order), (OrderUpdate.status order) as [|[[|]|]];
    reflexivity.
Qed.

Lemma order_by_id_found db order_id o :
  order_by_id db order_id = Some o ->
  In o (store_order db) /\ Order.id o = order_id.
Proof.
  unfold order_by_id. intros H. apply find_some in H.
  destruct H as [Hin Heq]. split; [assumption|]. now apply Z.eqb_eq.
Qed.

(** After [commit], the row read back under the order's id is the row that
    was written. *)
Lemma order_by_id_write_order db row o :
  order_by_id db (Order.id row) = Some o ->
  order_by_id (write_order row db) (Order.id row) = Some row.
Proof.
  unfold order_by_id, write_order. cbn.
  induction (store_order db) as [|x rows IH]; cbn; [discriminate|].
  destruct (Order.id x =? Order.id row) eqn:E; cbn.
  - rewrite Z.eqb_refl. reflexivity.
  - rewrite E. exact IH.
Qed.

Lemma product_by_id_write_order db row v :
  product_by_id (write_order row db) v = product_by_id db v.
Proof. reflexivity. Qed.

Lemma customer_by_id_write_order db row v :
  customer_by_id (write_order row db) v = customer_by_id db v.
Proof. reflexivity. Qed.

Lemma update_order_found now order_id order db o :
  order_by_id db order_id = Some o ->
  update_order now order_id order db
  = (write_order (set_order_fields now order o) db,
     enrich_order_details (set_order_fields now order o)
       (write_order (set_order_fields now order o) db))
  /\ order_by_id (write_order (set_order_fields now order o) db) order_id
     = Some (set_order_fields now order o).
Proof.
  intros Hfind. unfold update_order. rewrite Hfind. split; [reflexivity|].
  destruct (order_by_id_found _ _ _ Hfind) as [_ Hid].
  pose proof (order_by_id_write_order db (set_order_fields now order o) o) as Hw.
  rewrite set_order_fields_id, Hid in Hw. now apply Hw.
Qed.

Lemma set_order_fields_invariant now order o :
  shipped_iff_dated o -> shipped_iff_dated (set_order_fields now order o).
Proof.
  unfold shipped_iff_dated. intros Hinv.
  destruct (OrderUpdate.status order) as [|value] eqn:Hst.
  - destruct (set_order_fields_status_unset now order o Hst) as [-> ->].
    exact Hinv.
  - destruct (set_order_fields_status_set now order o value Hst) as [-> ->].
    destruct value as [[|]|]; cbn.
    + destruct (Order.date_shipped o); split; intros; congruence.
    + split; intros; congruence.
    + split; intros; congruence.
Qed.

Lemma update_order_invariant now order_id order db :
  Forall shipped_iff_dated (store_order db) ->
  Forall shipped_iff_dated (store_order (fst (update_order now order_id order db))).
Proof.
  intros Hall. unfold update_order.
  destruct (order_by_id db order_id) as [o|] eqn:Hfind; cbn; [|assumption].
  destruct (order_by_id_found _ _ _ Hfind) as [Hin _].
  assert (Ho : shipped_iff_dated o)
    by (rewrite Forall_forall in Hall; now apply Hall).
  apply Forall_forall. intros x Hx. apply in_map_iff in Hx.
  destruct Hx as [y [Hy Hiny]].
  destruct (Order.id y =? Order.id (set_order_fields now order o)).
  - subst x. now apply set_order_fields_invariant.
  - subst x. rewrite Forall_forall in Hall. now apply Hall.
Qed.

(** C3.  For an existing order and a payload that carries [status]: a new
    status of true stamps an unset shipping date with the current time
    and leaves a set one as it is, and a new status of false clears the
    shipping date whatever it was. *)
Theorem update_order_status_rule now order_id order db o (value : bool) :
  order_by_id db order_id = Some o ->
  OrderUpdate.status order = Provided (Some value) ->
  exists o',
    order_by_id (fst (update_order now order_id order db)) order_id = Some o'
    /\ Order.status o' = Some value
    /\ (value = true -> Order.date_shipped o = None ->
        Order.date_shipped o' = Some now)
    /\ (value = true -> forall stamped, Order.date_shipped o = Some stamped ->
        Order.date_shipped o' = Some stamped)
    /\ (value = false -> Order.date_shipped o' = None).
Proof.
  intros Hfind Hst.
  destruct (update_order_found now order_id order db o Hfind) as [Hrun Hread].
  destruct (set_order_fields_status_set now order o (Some value) Hst)
    as [Hstatus Hdate].
  exists (set_order_fields now order o). rewrite Hrun. cbn [fst].
  split; [exact Hread|]. split; [exact Hstatus|].
  repeat split.
  - intros -> Hnone. rewrite Hdate, Hnone. reflexivity.
  - intros -> stamped Hsome. rewrite Hdate, Hsome. reflexivity.
  - intros ->. rewrite Hdate. reflexivity.
Qed.

Lemma update_order_status_rule_witness :
  exists o',
    order_by_id (fst (update_order Sample.noon 1 Sample.ship Sample.shop)) 1
    = Some o'
    /\ Order.status o' = Some true
    /\ Order.date_shipped o' = Some Sample.noon.
Proof.
  destruct (update_order_status_rule Sample.noon 1 Sample.ship Sample.shop
              Sample.order1 true eq_refl eq_refl)
    as (o' & Hread & Hstatus & Hstamp & _).
  exists o'. split; [exact Hread|]. split; [exact Hstatus|].
  apply Hstamp; reflexivity.
Defined.

(** C4.  If every order satisfies
    [(status == true) == (date_shipped is not None)], then so does every
    order after any run of requests to the order update endpoint. *)
Theorem update_order_keeps_shipping_invariant requests db :
  Forall shipped_iff_dated (store_order db) ->
  Forall shipped_iff_dated (store_order (run_updates requests db)).
Proof.
  revert db. induction requests as [|[[now order_id] order] requests IH];
    intros db Hall; cbn; [assumption|].
  apply IH. now apply update_order_invariant.
Qed.

Lemma sample_shop_invariant : Forall shipped_iff_dated (store_order Sample.shop).
Proof.
  repeat constructor; cbn; intros; congruence.
Qed.

Lemma update_order_keeps_shipping_invariant_witness :
  Forall shipped_iff_dated
    (store_order
       (run_updates [(Sample.noon, 1, Sample.ship); (Sample.later, 1, Sample.ship);
                     (Sample.later, 2, Sample.unship)] Sample.shop)).
Proof.
  apply (update_order_keeps_shipping_invariant
           [(Sample.noon, 1, Sample.ship); (Sample.later, 1, Sample.ship);
            (Sample.later, 2, Sample.unship)] Sample.shop).
  exact sample_shop_invariant.
Defined.

(* ================================================================== *)
(** * Dangling references *)
(* ================================================================== *)

Lemma resolves_false_iff db order :
  resolves db order = false
  <-> product_by_id db (Order.product_id order) = None
      \/ customer_by_id db (Order.customer_id order) = None.
Proof.
  unfold resolves.
  destruct (product_by_id db (Order.product_id order)),
    (customer_by_id db (Order.customer_id order)); cbn; split;
    intros H; try reflexivity; try discriminate;
    try (left; reflexivity); try (right; reflexivity).
  destruct H; discriminate.
Qed.

Lemma enrich_dangling order db :
  resolves db order = false -> enrich_order_details order db = ret None.
Proof.
  unfold resolves, enrich_order_details.
  destruct (product_by_id db (Order.product_id order)),
    (customer_by_id db (Order.customer_id order)); cbn;
    intros H; try reflexivity; discriminate.
Qed.

(** A resolving order is never dropped: when its enrichment returns, it
    returns a view, and the view carries the order's id. *)
Lemma enrich_resolved order db r :
  resolves db order = true ->
  enrich_order_details order db = ret r ->
  exists v, r = Some v /\ DjangoOrderResponse.id v = Order.id order.
Proof.
  unfold resolves, enrich_order_details.
  destruct (product_by_id db (Order.product_id order)) as [p|],
    (customer_by_id db (Order.customer_id order)) as [c|]; cbn;
    intros H; try discriminate.
  destruct (unit_price p) as [e|price]; cbn; [discriminate|].
  destruct (float_ price) as [e|fprice]; cbn; [discriminate|].
  destruct (mul_float_int fprice (Order.quantity order)) as [e|amount]; cbn;
    [discriminate|].
  intros Heq. injection Heq as <-. eexists. split; reflexivity.
Qed.

Lemma enrich_all_cons order orders db :
  enrich_all (order :: orders) db
  = (y <- enrich_order_details order db ;;
     views <- enrich_all orders db ;;
     ret (match y with Some v => v :: views | None => views end)).
Proof.
  unfold enrich_all. cbn.
  destruct (enrich_order_details order db) as [e|y]; cbn; [reflexivity|].
  destruct (mapM (fun order0 => enrich_order_details order0 db) orders); cbn;
    [reflexivity|].
  destruct y; reflexivity.
Qed.



Lemma enrich_all_ids orders db views :
  enrich_all orders db = ret views ->
  map DjangoOrderResponse.id views = map Order.id (filter (resolves db) orders).
Proof.
  revert views. induction orders as [|o orders IH]; intros views.
  - cbn. intros H. injection H as <-. reflexivity.
  - rewrite enrich_all_cons. cbn [filter].
    destruct (enrich_order_details o db) as [e|y] eqn:Hy; cbn; [discriminate|].
    destruct (enrich_all orders db) as [e|rest]; cbn; [discriminate|].
    intros H. injection H as <-.
    destruct (resolves db o) eqn:Hres.
    + destruct (enrich_resolved o db y Hres Hy) as (v & -> & Hid).
      cbn. rewrite Hid, (IH rest eq_refl). reflexivity.
    + rewrite (enrich_dangling _ _ Hres) in Hy. injection Hy as <-.
      exact (IH rest eq_refl).
Qed.

(** A batch returns as soon as its resolving orders can be enriched:
    no dangling order makes it fail. *)
Lemma enrich_all_returns orders db :
  (forall o, In o orders -> resolves db o = true ->
             exists v, enrich_order_details o db = ret (Some v)) ->
  exists views, enrich_all orders db = ret views.
Proof.
  induction orders as [|o orders IH]; intros Hall.
  - eexists. reflexivity.
  - destruct IH as [views Hviews].
    { intros o' Ho'. apply Hall. now right. }
    rewrite enrich_all_cons, Hviews.
    destruct (resolves db o) eqn:Hres.
    + destruct (Hall o (or_introl eq_refl) Hres) as [v ->].
      eexists. reflexivity.
    + rewrite (enrich_dangling _ _ Hres). eexists. reflexivity.
Qed.



(** C5.  The single-order lookup does not surface a distinct error for an
    order whose product or customer is missing.  It raises a 404 with a
    detail of its own for such an order, but the handler the application
    registers for 404 answers every 404 with one fixed body, so the
    client gets for it the very answer it gets for an order that does not
    exist. *)
Theorem dangling_order_answered_as_missing db order order_id missing_id :
  product_by_id db (Order.product_id order) = None
  \/ customer_by_id db (Order.customer_id order) = None ->
  order_by_id db order_id = Some order ->
  order_by_id db missing_id = None ->
  exists dangling missing,
    get_order order_id db = raise dangling
    /\ get_order missing_id db = raise missing
    /\ dangling
       = HTTPException 404
           "Associated product or customer not found for this order"
    /\ missing = HTTPException 404 "Order not found"
    /\ handle_exception dangling = handle_exception missing
    /\ handle_exception dangling = JSONResponse.mk 404 "Resource not found".
Proof.
  intros Hd Hfound Hmissing. apply resolves_false_iff in Hd.
  eexists. eexists.
  split.
  { unfold get_order. rewrite Hfound, (enrich_dangling _ _ Hd). reflexivity. }
  split.
  { unfold get_order. rewrite Hmissing. reflexivity. }
  repeat split; reflexivity.
Qed.

Lemma dangling_order_answered_as_missing_witness :
  order_by_id Sample.shop 3 = Some Sample.orphan
  /\ order_by_id Sample.shop 9 = None
  /\ exists dangling missing,
       get_order 3 Sample.shop = raise dangling
       /\ get_order 9 Sample.shop = raise missing
       /\ handle_exception dangling = JSONResponse.mk 404 "Resource not found"
       /\ handle_exception missing = JSONResponse.mk 404 "Resource not found".
Proof.
  split; [reflexivity|]. split; [reflexivity|].
  destruct (dangling_order_answered_as_missing Sample.shop Sample.orphan 3 9
              (or_introl eq_refl) eq_refl eq_refl)
    as (dangling & missing & Hd & Hm & _ & _ & Hsame & Hanswer).
  exists dangling, missing.
  split; [exact Hd|]. split; [exact Hm|]. split; [exact Hanswer|].
  rewrite <- Hsame. exact Hanswer.
Defined.

(** A payload that leaves the two references out leaves them as they
    were. *)
Lemma set_order_fields_keeps_references now order o :
  OrderUpdate.product_id order = Unset ->
  OrderUpdate.customer_id order = Unset ->
  Order.product_id (set_order_fields now order o) = Order.product_id o
  /\ Order.customer_id (set_order_fields now order o) = Order.customer_id o.
Proof.
  intros Hp Hc. unfold set_order_fields, set_status_field. rewrite Hp, Hc.
  destruct o as [i pid cid q a ph d st [stamped|]];
    destruct (OrderUpdate.quantity order), (OrderUpdate.address order),
      (OrderUpdate.phone order), (OrderUpdate.status order) as [|[[|]|]];
    split; reflexivity.
Qed.

(** C10, as the code has it.  When the references of the order, as they
    stand once the requested changes are applied, do not both resolve,
    the update endpoint commits the changes and returns [None] without
    raising.  That is the case of a dangling order whenever the payload
    leaves both references out. *)
Theorem update_order_dangling_returns_none now order_id order db o :
  order_by_id db order_id = Some o ->
  (product_by_id db (Order.product_id (set_order_fields now order o)) = None
   \/ customer_by_id db (Order.customer_id (set_order_fields now order o)) = None ->
   update_order now order_id order db
   = (write_order (set_order_fields now order o) db, ret None)
   /\ order_by_id (fst (update_order now order_id order db)) order_id
      = Some (set_order_fields now order o))
  /\ (OrderUpdate.product_id order = Unset ->
      OrderUpdate.customer_id order = Unset ->
      product_by_id db (Order.product_id o) = None
      \/ customer_by_id db (Order.customer_id o) = None ->
      update_order now order_id order db
      = (write_order (set_order_fields now order o) db, ret None)
      /\ order_by_id (fst (update_order now order_id order db)) order_id
         = Some (set_order_fields now order o)).
Proof.
  intros Hfind.
  destruct (update_order_found now order_id order db o Hfind) as [Hrun Hread].
  assert (Hafter :
    product_by_id db (Order.product_id (set_order_fields now order o)) = None
    \/ customer_by_id db (Order.customer_id (set_order_fields now order o)) = None ->
    update_order now order_id order db
    = (write_order (set_order_fields now order o) db, ret None)
    /\ order_by_id (fst (update_order now order_id order db)) order_id
       = Some (set_order_fields now order o)).
  { intros Hd. apply resolves_false_iff in Hd.
    rewrite Hrun. cbn [fst]. split; [|exact Hread].
    f_equal. apply enrich_dangling. exact Hd. }
  split; [exact Hafter|].
  intros Hp Hc Hd. apply Hafter.
  destruct (set_order_fields_keeps_references now order o Hp Hc) as [-> ->].
  exact Hd.
Qed.

Lemma update_order_dangling_returns_none_witness :
  snd (update_order Sample.noon 3 Sample.ship Sample.shop) = ret None
  /\ exists o',
       order_by_id (fst (update_order Sample.noon 3 Sample.ship Sample.shop)) 3
       = Some o'
       /\ Order.status o' = Some true.
Proof.
  destruct (update_order_dangling_returns_none Sample.noon 3 Sample.ship
              Sample.shop Sample.orphan eq_refl) as [_ Hkept].
  destruct (Hkept eq_refl eq_refl (or_introl eq_refl)) as [Hrun Hread].
  split; [rewrite Hrun; reflexivity|].
  eexists. split; [exact Hread|]. reflexivity.
Defined.

(** C10 as stated fails: order 3 points at a product that does not exist,
    the payload points it at product 1, and the endpoint returns the
    enriched view of the repaired order. *)
Lemma update_order_repointed_is_enriched :
  order_by_id Sample.shop 3 = Some Sample.orphan
  /\ product_by_id Sample.shop (Order.product_id Sample.orphan) = None
  /\ snd (update_order Sample.noon 3 Sample.repoint Sample.shop) <> ret None.
Proof.
  split; [reflexivity|]. split; [reflexivity|].
  vm_compute. discriminate.
Qed.

(* ================================================================== *)
(** * Pricing *)
(* ================================================================== *)

(** The conditional of the code computes the rule of the specification.
    The sale price is only read when the product is on sale, so nothing
    is asked of it otherwise. *)
Lemma unit_price_rule p s pr :
  Product.price p = Some pr ->
  (truthy (Product.is_sale p) = true -> Product.sale_price p = Some s) ->
  unit_price p = ret (Some (effective_price (truthy (Product.is_sale p)) s pr)).
Proof.
  intros Hpr Hs. unfold unit_price, effective_price.
  destruct (truthy (Product.is_sale p)); cbn.
  - rewrite (Hs eq_refl). cbn. rewrite Hpr.
    destruct (PrimFloat.ltb 0 s); reflexivity.
  - rewrite Hpr. reflexivity.
Qed.

Lemma unit_price_not_on_sale p :
  truthy (Product.is_sale p) = false -> unit_price p = ret (Product.price p).
Proof. intros H. unfold unit_price. rewrite H. reflexivity. Qed.

(** A sale flag with a [NULL] sale price makes the comparison raise. *)
Lemma unit_price_null_sale_price p :
  truthy (Product.is_sale p) = true -> Product.sale_price p = None ->
  unit_price p = raise TypeError.
Proof. intros H Hs. unfold unit_price. rewrite H, Hs. reflexivity. Qed.

(** Whatever the conditional returns is what the rule gives. *)
Lemma unit_price_returns p r :
  unit_price p = ret r ->
  (truthy (Product.is_sale p) = false /\ r = Product.price p)
  \/ (exists s,
        truthy (Product.is_sale p) = true
        /\ Product.sale_price p = Some s
        /\ r = if PrimFloat.ltb 0 s then Some s else Product.price p).
Proof.
  unfold unit_price. destruct (truthy (Product.is_sale p)).
  - destruct (Product.sale_price p) as [s|]; cbn; [|discriminate].
    intros H. right. exists s. split; [reflexivity|]. split; [reflexivity|].
    destruct (PrimFloat.ltb 0 s); injection H as <-; reflexivity.
  - intros H. injection H as <-. left. split; reflexivity.
Qed.

(** Pricing raises nothing but [TypeError]. *)
Lemma unit_price_raises p e : unit_price p = inl e -> e = TypeError.
Proof.
  unfold unit_price. destruct (truthy (Product.is_sale p)); [|discriminate].
  destruct (Product.sale_price p); cbn.
  - destruct (PrimFloat.ltb 0 f); discriminate.
  - intros H. injection H as <-. reflexivity.
Qed.

Lemma enrich_priced order db p c q e :
  product_by_id db (Order.product_id order) = Some p ->
  customer_by_id db (Order.customer_id order) = Some c ->
  Order.quantity order = Some q ->
  unit_price p = ret (Some e) ->
  exists v,
    enrich_order_details order db = ret (Some v)
    /\ DjangoOrderResponse.amount_paid v = PrimFloat.mul e (float_of_int q)
    /\ DjangoOrderResponse.items_list v
       = [OrderItem.mk (Product.name p) (Some q) e].
Proof.
  intros Hp Hc Hq He. unfold enrich_order_details.
  rewrite Hp, Hc, He, Hq. cbn. eexists. split; [reflexivity|].
  split; reflexivity.
Qed.

(** Conversely, an enrichment that returns has priced the order. *)
Lemma enrich_returns order db p c r :
  product_by_id db (Order.product_id order) = Some p ->
  customer_by_id db (Order.customer_id order) = Some c ->
  enrich_order_details order db = ret r ->
  exists v e q,
    r = Some v
    /\ unit_price p = ret (Some e)
    /\ Order.quantity order = Some q
    /\ DjangoOrderResponse.amount_paid v = PrimFloat.mul e (float_of_int q).
Proof.
  intros Hp Hc. unfold enrich_order_details. rewrite Hp, Hc.
  destruct (unit_price p) as [x|[e|]]; cbn; try discriminate.
  destruct (Order.quantity order) as [q|]; cbn; [|discriminate].
  intros H. injection H as <-. eexists. exists e, q.
  repeat split; reflexivity.
Qed.

Lemma enrich_null_quantity order db p c e :
  product_by_id db (Order.product_id order) = Some p ->
  customer_by_id db (Order.customer_id order) = Some c ->
  unit_price p = ret (Some e) ->
  Order.quantity order = None ->
  enrich_order_details order db = raise TypeError.
Proof.
  intros Hp Hc He Hq. unfold enrich_order_details.
  rewrite Hp, Hc, He, Hq. reflexivity.
Qed.

Lemma create_order_priced today order db p c e :
  product_by_id db (Some (OrderCreate.product_id order)) = Some p ->
  customer_by_id db (Some (OrderCreate.customer_id order)) = Some c ->
  unit_price p = ret (Some e) ->
  exists r,
    snd (create_order today order db) = ret r
    /\ OrderResponse.amount_paid r
       = PrimFloat.mul e (float_of_int (OrderCreate.quantity order)).
Proof.
  intros Hp Hc He. unfold create_order. rewrite Hp, Hc. cbn.
  rewrite He. cbn. eexists. split; reflexivity.
Qed.

(** The revenue loop over orders whose quantities hold values. *)
Lemma add_revenue_priced p e acc order q :
  unit_price p = ret (Some e) ->
  Order.quantity order = Some q ->
  add_revenue p acc order = ret (add_line e acc q).
Proof.
  intros He Hq. unfold add_revenue. rewrite He, Hq. reflexivity.
Qed.

Lemma add_revenue_returns p acc order rev :
  add_revenue p acc order = ret rev ->
  exists e q,
    unit_price p = ret (Some e)
    /\ Order.quantity order = Some q
    /\ rev = add_line e acc q.
Proof.
  unfold add_revenue.
  destruct (unit_price p) as [x|[e|]]; cbn;
    destruct (Order.quantity order) as [q|]; cbn; try discriminate.
  intros H. injection H as <-. exists e, q. repeat split; reflexivity.
Qed.

Lemma add_revenue_raises p acc order e :
  add_revenue p acc order = inl e -> e = TypeError.
Proof.
  unfold add_revenue.
  destruct (unit_price p) as [e'|price] eqn:Hp; cbn.
  - intros H. injection H as <-. now apply unit_price_raises in Hp.
  - destruct (Order.quantity order), price; cbn; intros H;
      try discriminate; injection H as <-; reflexivity.
Qed.

Lemma revenue_loop p e orders : forall quantities acc,
  unit_price p = ret (Some e) ->
  map Order.quantity orders = map Some quantities ->
  foldM (add_revenue p) orders acc = ret (fold_left (add_line e) quantities acc).
Proof.
  induction orders as [|o orders IH]; intros [|q quantities] acc He Hqs;
    try discriminate; [reflexivity|].
  cbn in Hqs. injection Hqs as Hq Hqs.
  cbn. rewrite (add_revenue_priced p e acc o q He Hq). cbn.
  now apply IH.
Qed.

Lemma revenue_loop_returns p orders : forall acc rev,
  foldM (add_revenue p) orders acc = ret rev ->
  exists quantities,
    map Order.quantity orders = map Some quantities
    /\ ((orders = [] /\ rev = acc)
        \/ exists e,
             unit_price p = ret (Some e)
             /\ rev = fold_left (add_line e) quantities acc).
Proof.
  induction orders as [|o orders IH]; intros acc rev; cbn.
  - intros H. injection H as <-. exists []. split; [reflexivity|].
    left. split; reflexivity.
  - destruct (add_revenue p acc o) as [x|acc'] eqn:Hstep; cbn; [discriminate|].
    intros Hrest.
    destruct (add_revenue_returns p acc o acc' Hstep) as (e & q & He & Hq & ->).
    destruct (IH _ _ Hrest) as (quantities & Hqs & Hrev).
    exists (q :: quantities). split; [cbn [map]; now rewrite Hq, Hqs|].
    right. exists e. split; [exact He|].
    destruct Hrev as [[-> ->]|(e' & He' & ->)].
    + destruct quantities; [reflexivity|discriminate].
    + rewrite He in He'. injection He' as <-. reflexivity.
Qed.

Lemma revenue_and_quantity_loop p e orders : forall quantities acc,
  unit_price p = ret (Some e) ->
  map Order.quantity orders = map Some quantities ->
  foldM (add_revenue_and_quantity p) orders acc
  = ret (fold_left (add_line e) quantities (fst acc),
         fold_left Z.add quantities (snd acc)).
Proof.
  induction orders as [|o orders IH]; intros [|q quantities] acc He Hqs;
    try discriminate; [destruct acc; reflexivity|].
  cbn in Hqs. injection Hqs as Hq Hqs.
  cbn. unfold add_revenue_and_quantity at 1.
  rewrite (add_revenue_priced p e (fst acc) o q He Hq). cbn.
  rewrite Hq. cbn. rewrite (IH quantities _ He Hqs). reflexivity.
Qed.

Lemma revenue_and_quantity_loop_returns p orders : forall acc totals,
  foldM (add_revenue_and_quantity p) orders acc = ret totals ->
  exists quantities,
    map Order.quantity orders = map Some quantities
    /\ snd totals = fold_left Z.add quantities (snd acc)
    /\ ((orders = [] /\ fst totals = fst acc)
        \/ exists e,
             unit_price p = ret (Some e)
             /\ fst totals = fold_left (add_line e) quantities (fst acc)).
Proof.
  induction orders as [|o orders IH]; intros acc totals; cbn.
  - intros H. injection H as <-. exists []. split; [reflexivity|].
    split; [reflexivity|]. left. split; reflexivity.
  - unfold add_revenue_and_quantity at 1.
    destruct (add_revenue p (fst acc) o) as [x|rev] eqn:Hstep; cbn;
      [discriminate|].
    destruct (add_revenue_returns p _ o rev Hstep) as (e & q & He & Hq & ->).
    rewrite Hq. cbn. intros Hrest.
    destruct (IH _ _ Hrest) as (quantities & Hqs & Hqty & Hrev).
    cbn [fst snd] in Hqty, Hrev.
    exists (q :: quantities). split; [cbn [map]; now rewrite Hqs|].
    split; [exact Hqty|].
    right. exists e. split; [exact He|].
    destruct Hrev as [[-> ->]|(e' & He' & ->)].
    + destruct quantities; [reflexivity|discriminate].
    + rewrite He in He'. injection He' as <-. reflexivity.
Qed.

Lemma foldM_raises {A S} (body : S -> A -> result S) xs :
  (forall acc x e, body acc x = inl e -> e = TypeError) ->
  forall acc e, foldM body xs acc = inl e -> e = TypeError.
Proof.
  intros Hbody. induction xs as [|x xs IH]; intros acc e; cbn; [discriminate|].
  destruct (body acc x) as [e'|acc'] eqn:Hb; cbn.
  - intros H. injection H as <-. now apply Hbody in Hb.
  - apply IH.
Qed.

Lemma revenue_and_quantity_raises p orders acc e :
  foldM (add_revenue_and_quantity p) orders acc = inl e -> e = TypeError.
Proof.
  apply foldM_raises. clear. intros acc o e. unfold add_revenue_and_quantity.
  destruct (add_revenue p (fst acc) o) as [e'|rev] eqn:Hrev; cbn.
  - intros H. injection H as <-. now apply add_revenue_raises in Hrev.
  - destruct (Order.quantity o); cbn; intros H; [discriminate|].
    injection H as <-. reflexivity.
Qed.

Lemma product_by_id_found db v p :
  product_by_id db v = Some p ->
  In p (store_product db) /\ v = Some (Product.id p).
Proof.
  unfold product_by_id. intros H. apply find_some in H.
  destruct H as [Hin Heq]. split; [assumption|].
  destruct v as [b|]; cbn in Heq; [|discriminate].
  apply Z.eqb_eq in Heq. now subst.
Qed.

Lemma product_by_id_missing db product_id :
  product_by_id db (Some product_id) = None
  <-> ~ exists p, In p (store_product db) /\ Product.id p = product_id.
Proof.
  unfold product_by_id. split.
  - intros Hnone [p [Hin Hid]].
    pose proof (find_none _ _ Hnone p Hin) as Hf. cbn in Hf.
    apply Z.eqb_neq in Hf. contradiction.
  - intros Hno.
    destruct (find _ (store_product db)) as [p|] eqn:Hf; [|reflexivity].
    apply find_some in Hf. destruct Hf as [Hin Heq]. cbn in Heq.
    apply Z.eqb_eq in Heq. exfalso. apply Hno. now exists p.
Qed.


(** C1.  Whatever the pricing conditional returns is the sale price when
    the product is on sale and the sale price is positive, and the list
    price otherwise; for a product that is not on sale it returns the
    list price whatever the sale price.  On a product whose list price
    holds a value (and whose sale price does when it is on sale) it
    returns the effective price of the specification, and enrichment,
    order creation and the two revenue loops all charge that price. *)
Theorem effective_price_at_every_site p :
  (forall r,
     unit_price p = ret r ->
     (truthy (Product.is_sale p) = false /\ r = Product.price p)
     \/ (exists s,
           truthy (Product.is_sale p) = true
           /\ Product.sale_price p = Some s
           /\ r = if PrimFloat.ltb 0 s then Some s else Product.price p))
  /\ (truthy (Product.is_sale p) = false -> unit_price p = ret (Product.price p))
  /\ (forall s pr,
        Product.price p = Some pr ->
        (truthy (Product.is_sale p) = true -> Product.sale_price p = Some s) ->
        let e := effective_price (truthy (Product.is_sale p)) s pr in
        unit_price p = ret (Some e)
        /\ (truthy (Product.is_sale p) = true -> PrimFloat.ltb 0 s = true -> e = s)
        /\ (truthy (Product.is_sale p) = true -> PrimFloat.ltb 0 s = false -> e = pr)
        /\ (truthy (Product.is_sale p) = false -> e = pr)
        /\ (forall order db c q,
              product_by_id db (Order.product_id order) = Some p ->
              customer_by_id db (Order.customer_id order) = Some c ->
              Order.quantity order = Some q ->
              exists v,
                enrich_order_details order db = ret (Some v)
                /\ DjangoOrderResponse.amount_paid v
                   = PrimFloat.mul e (float_of_int q)
                /\ DjangoOrderResponse.items_list v
                   = [OrderItem.mk (Product.name p) (Some q) e])
        /\ (forall today order db c,
              product_by_id db (Some (OrderCreate.product_id order)) = Some p ->
              customer_by_id db (Some (OrderCreate.customer_id order)) = Some c ->
              exists r,
                snd (create_order today order db) = ret r
                /\ OrderResponse.amount_paid r
                   = PrimFloat.mul e (float_of_int (OrderCreate.quantity order)))
        /\ (forall product_id db quantities,
              product_by_id db (Some product_id) = Some p ->
              map Order.quantity (orders_of_product db product_id)
              = map Some quantities ->
              exists r,
                get_total_revenue_per_product product_id db = ret r
                /\ ProductAnalysisResponse.total_revenue r
                   = revenue_of e quantities)
        /\ (forall engine db top_product_id total quantities,
              top_selling engine db = Some (top_product_id, total) ->
              product_by_id db top_product_id = Some p ->
              map Order.quantity (orders_of_product db (Product.id p))
              = map Some quantities ->
              exists r,
                get_highest_selling_product engine db = ret r
                /\ ProductAnalysisResponse.total_revenue r
                   = revenue_of e quantities)).
Proof.
  split; [apply unit_price_returns|].
  split; [apply unit_price_not_on_sale|].
  intros s pr Hpr Hs e.
  assert (He : unit_price p = ret (Some e)) by now apply unit_price_rule.
  split; [exact He|].
  split; [intros Hon Hpos; unfold e, effective_price; now rewrite Hon, Hpos|].
  split; [intros Hon Hpos; unfold e, effective_price; now rewrite Hon, Hpos|].
  split; [intros Hoff; unfold e, effective_price; now rewrite Hoff|].
  split; [intros order db c q Hp Hc Hq; now apply enrich_priced with (c := c)|].
  split; [intros today order db c Hp Hc;
          now apply create_order_priced with (p := p) (c := c)|].
  split.
  - intros product_id db quantities Hp Hqs.
    unfold get_total_revenue_per_product. rewrite Hp.
    rewrite (revenue_and_quantity_loop p e _ quantities _ He Hqs). cbn.
    eexists. split; reflexivity.
  - intros engine db top_product_id total quantities Htop Hp Hqs.
    unfold get_highest_selling_product. rewrite Htop, Hp.
    rewrite (revenue_loop p e _ quantities _ He Hqs). cbn.
    eexists. split; reflexivity.
Qed.

Lemma effective_price_at_every_site_witness :
  unit_price Sample.mug = ret (Some 80%float)
  /\ unit_price Sample.pen = ret (Some 2.5%float)
  /\ exists v,
       enrich_order_details Sample.order1 Sample.shop = ret (Some v)
       /\ DjangoOrderResponse.items_list v = [OrderItem.mk "Mug" (Some 3) 80%float].
Proof.
  destruct (effective_price_at_every_site Sample.mug) as (_ & _ & Hmug).
  destruct (Hmug 80%float 100%float eq_refl (fun _ => eq_refl))
    as (Hrule & _ & _ & _ & Henrich & _).
  destruct (effective_price_at_every_site Sample.pen) as (_ & Hpen & _).
  split; [exact Hrule|]. split; [exact (Hpen eq_refl)|].
  destruct (Henrich Sample.order1 Sample.shop Sample.ann 3 eq_refl eq_refl eq_refl)
    as (v & Hv & _ & Hitems).
  exists v. split; [exact Hv|exact Hitems].
Defined.

(** C2.  For an order whose product and customer both exist, the amount
    paid of the enriched view is the float product of the effective price
    and the quantity: the view is returned with that amount when the
    quantity and the prices hold values, and every view that is returned
    carries that amount.  With list price 100, on sale at 80, and
    quantity 3 the amount is 240.0. *)
Theorem enriched_amount_paid order db p c :
  product_by_id db (Order.product_id order) = Some p ->
  customer_by_id db (Order.customer_id order) = Some c ->
  (forall q s pr,
     Order.quantity order = Some q ->
     Product.price p = Some pr ->
     (truthy (Product.is_sale p) = true -> Product.sale_price p = Some s) ->
     exists v,
       enrich_order_details order db = ret (Some v)
       /\ DjangoOrderResponse.amount_paid v
          = PrimFloat.mul (effective_price (truthy (Product.is_sale p)) s pr)
                          (float_of_int q)
       /\ (Product.is_sale p = Some true -> s = 80%float -> pr = 100%float ->
           q = 3 -> DjangoOrderResponse.amount_paid v = 240%float))
  /\ (forall r,
        enrich_order_details order db = ret r ->
        exists v e q,
          r = Some v
          /\ unit_price p = ret (Some e)
          /\ Order.quantity order = Some q
          /\ DjangoOrderResponse.amount_paid v = PrimFloat.mul e (float_of_int q)).
Proof.
  intros Hp Hc. split.
  - intros q s pr Hq Hpr Hs.
    destruct (enrich_priced order db p c q _ Hp Hc Hq
                (unit_price_rule p s pr Hpr Hs))
      as (v & Hv & Hamount & _).
    exists v. split; [exact Hv|]. split; [exact Hamount|].
    intros Hsale -> -> ->. rewrite Hamount, Hsale. reflexivity.
  - intros r. now apply enrich_returns with (c := c).
Qed.

Lemma enriched_amount_paid_witness :
  exists v,
    enrich_order_details Sample.order1 Sample.shop = ret (Some v)
    /\ DjangoOrderResponse.amount_paid v = 240%float.
Proof.
  destruct (enriched_amount_paid Sample.order1 Sample.shop Sample.mug
              Sample.ann eq_refl eq_refl) as [Hpriced _].
  destruct (Hpriced 3 80%float 100%float eq_refl eq_refl (fun _ => eq_refl))
    as (v & Hv & _ & Hexample).
  exists v. split; [exact Hv|]. apply Hexample; reflexivity.
Defined.

(* ================================================================== *)
(** * Revenue of one product *)
(* ================================================================== *)

(** C6.  The revenue endpoint fails with NotFound exactly when no product
    has the id.  When the product exists and has no orders it returns
    revenue 0.0 and quantity 0; when its orders and prices hold values it
    returns the running sum of quantity times the product's current
    effective price over its orders, and the sum of their quantities; and
    whatever it returns is made of these two sums. *)
Theorem revenue_for_product product_id db :
  (fails_not_found (get_total_revenue_per_product product_id db)
   <-> ~ exists p, In p (store_product db) /\ Product.id p = product_id)
  /\ (forall p,
        product_by_id db (Some product_id) = Some p ->
        (orders_of_product db product_id = [] ->
         get_total_revenue_per_product product_id db
         = ret (ProductAnalysisResponse.mk product_id (Product.name p)
                  0%float (Some 0)))
        /\ (forall s pr quantities,
              Product.price p = Some pr ->
              (truthy (Product.is_sale p) = true ->
               Product.sale_price p = Some s) ->
              map Order.quantity (orders_of_product db product_id)
              = map Some quantities ->
              get_total_revenue_per_product product_id db
              = ret (ProductAnalysisResponse.mk product_id (Product.name p)
                       (revenue_of
                          (effective_price (truthy (Product.is_sale p)) s pr)
                          quantities)
                       (Some (quantity_of quantities))))
        /\ (forall r,
              get_total_revenue_per_product product_id db = ret r ->
              exists quantities,
                map Order.quantity (orders_of_product db product_id)
                = map Some quantities
                /\ ProductAnalysisResponse.product_id r = product_id
                /\ ProductAnalysisResponse.product_name r = Product.name p
                /\ ProductAnalysisResponse.total_quantity_sold r
                   = Some (quantity_of quantities)
                /\ ((orders_of_product db product_id = []
                     /\ ProductAnalysisResponse.total_revenue r = 0%float)
                    \/ exists e,
                         unit_price p = ret (Some e)
                         /\ ProductAnalysisResponse.total_revenue r
                            = revenue_of e quantities))).
Proof.
  split.
  - rewrite <- product_by_id_missing. unfold get_total_revenue_per_product.
    destruct (product_by_id db (Some product_id)) as [p|] eqn:Hp.
    + split; [|discriminate]. intros [detail Hfail]. exfalso.
      destruct (foldM _ (orders_of_product db product_id) (0%float, 0))
        as [e|totals] eqn:Hloop; cbn in Hfail; [|discriminate].
      apply revenue_and_quantity_raises in Hloop. subst e. discriminate.
    + split; [reflexivity|]. intros _. eexists. reflexivity.
  - intros p Hp. unfold get_total_revenue_per_product. rewrite Hp.
    split; [|split].
    + intros ->. reflexivity.
    + intros s pr quantities Hpr Hs Hqs.
      rewrite (revenue_and_quantity_loop p _ _ quantities _
                 (unit_price_rule p s pr Hpr Hs) Hqs).
      reflexivity.
    + intros r.
      destruct (foldM _ (orders_of_product db product_id) (0%float, 0))
        as [e|totals] eqn:Hloop; cbn; [discriminate|].
      intros H. injection H as <-.
      destruct (revenue_and_quantity_loop_returns p _ _ _ Hloop)
        as (quantities & Hqs & Hqty & Hrev).
      exists quantities. cbn. split; [exact Hqs|].
      split; [reflexivity|]. split; [reflexivity|].
      split; [now rewrite Hqty|]. exact Hrev.
Qed.

Lemma revenue_for_product_witness :
  get_total_revenue_per_product 1 Sample.shop
  = ret (ProductAnalysisResponse.mk 1 "Mug" 240%float (Some 3))
  /\ get_total_revenue_per_product 3 Sample.shop
     = ret (ProductAnalysisResponse.mk 3 "Lamp" 0%float (Some 0))
  /\ fails_not_found (get_total_revenue_per_product 99 Sample.shop).
Proof.
  destruct (revenue_for_product 1 Sample.shop) as [_ Hmug].
  destruct (Hmug Sample.mug eq_refl) as (_ & Hsum & _).
  destruct (revenue_for_product 3 Sample.shop) as [_ Hlamp].
  destruct (Hlamp Sample.lamp eq_refl) as (Hzero & _).
  destruct (revenue_for_product 99 Sample.shop) as [Hmissing _].
  split; [exact (Hsum 80%float 100%float [3] eq_refl (fun _ => eq_refl) eq_refl)|].
  split; [exact (Hzero eq_refl)|].
  apply Hmissing. intros (p & Hin & Hid).
  cbn in Hin. destruct Hin as [<-|[<-|[<-|[]]]]; discriminate Hid.
Defined.

(* ================================================================== *)
(** * The highest-selling product *)
(* ================================================================== *)

Lemma opt_int_eqb_eq a b : opt_int_eqb a b = true <-> a = b.
Proof.
  destruct a as [x|], b as [y|]; cbn; split; intros H;
    try reflexivity; try discriminate.
  - apply Z.eqb_eq in H. now subst.
  - injection H as ->. apply Z.eqb_refl.
Qed.

Lemma group_keys_In k keys : In k (group_keys keys) <-> In k keys.
Proof.
  induction keys as [|k0 keys IH]; cbn; [reflexivity|].
  rewrite filter_In, IH. split.
  - intros [H|[H _]]; [now left|now right].
  - intros [H|H]; [now left|].
    destruct (opt_int_eqb k0 k) eqn:E.
    + left. now apply opt_int_eqb_eq.
    + right. split; [assumption|reflexivity].
Qed.

(** The rows of the grouped query: one for each product id that some
    order carries, with the [SUM] over the orders of that id. *)
Lemma quantity_by_product_In orders k total :
  In (k, total) (quantity_by_product orders)
  <-> (exists o, In o orders /\ Order.product_id o = k)
      /\ total = sql_sum (map Order.quantity (group_of k orders)).
Proof.
  unfold quantity_by_product, group_of. rewrite in_map_iff. split.
  - intros [k' [Heq Hin]]. injection Heq as -> <-.
    apply group_keys_In, in_map_iff in Hin.
    destruct Hin as [o [Hk Ho]]. split; [now exists o|reflexivity].
  - intros [[o [Ho Hk]] ->]. exists k. split; [reflexivity|].
    apply group_keys_In, in_map_iff. now exists o.
Qed.

Lemma quantity_by_product_nil orders :
  quantity_by_product orders = [] <-> orders = [].
Proof.
  unfold quantity_by_product. destruct orders as [|o orders]; cbn.
  - split; reflexivity.
  - split; discriminate.
Qed.

Lemma group_of_product db v :
  group_of (Some v) (store_order db) = orders_of_product db v.
Proof.
  unfold group_of, orders_of_product. apply filter_ext.
  intros o. destruct (Order.product_id o); reflexivity.
Qed.

Lemma group_of_own o orders :
  In o orders -> In o (group_of (Order.product_id o) orders).
Proof.
  intros Ho. unfold group_of. apply filter_In. split; [exact Ho|].
  now apply opt_int_eqb_eq.
Qed.

Lemma fold_left_add_shift quantities : forall acc,
  fold_left Z.add quantities acc = acc + fold_left Z.add quantities 0.
Proof.
  induction quantities as [|q quantities IH]; intros acc; cbn; [lia|].
  rewrite (IH (acc + q)), (IH q). lia.
Qed.

(** [SUM] over a group without [NULL] quantities is the integer sum. *)
Lemma sql_sum_populated quantities :
  quantities <> [] ->
  sql_sum (map Some quantities) = Some (quantity_of quantities).
Proof.
  unfold quantity_of.
  induction quantities as [|q quantities IH]; [congruence|]. intros _.
  destruct quantities as [|q' quantities].
  - reflexivity.
  - change (sql_sum (map Some (q :: q' :: quantities)))
      with (match sql_sum (map Some (q' :: quantities)) with
            | Some b => Some (q + b)
            | None => Some q
            end).
    rewrite IH by discriminate.
    change (fold_left Z.add (q :: q' :: quantities) 0)
      with (fold_left Z.add (q' :: quantities) (0 + q)).
    rewrite (fold_left_add_shift (q' :: quantities) (0 + q)).
    f_equal; lia.
Qed.

(** [SUM] is [NULL] only over a group whose quantities are all [NULL]. *)
Lemma sql_sum_some values v :
  In (Some v) values -> exists total, sql_sum values = Some total.
Proof.
  induction values as [|a values IH]; cbn; [contradiction|].
  intros [->|Hin].
  - destruct (sql_sum values); eexists; reflexivity.
  - destruct (IH Hin) as [t ->]. destruct a; eexists; reflexivity.
Qed.

Lemma group_total_some o orders :
  In o orders -> Order.quantity o <> None ->
  exists total,
    sql_sum (map Order.quantity (group_of (Order.product_id o) orders))
    = Some total.
Proof.
  intros Ho Hq. destruct (Order.quantity o) as [q|] eqn:E; [|congruence].
  apply sql_sum_some with (v := q). rewrite <- E.
  apply in_map. now apply group_of_own.
Qed.

Section Engine_facts.

Variable engine : list (option Z * option Z) -> list (option Z * option Z).
Hypothesis engine_sorts : sorts_by_total_desc engine.

Lemma top_selling_None db : top_selling engine db = None <-> store_order db = [].
Proof.
  unfold top_selling. destruct (engine_sorts (quantity_by_product (store_order db)))
    as [Hperm _].
  rewrite <- quantity_by_product_nil.
  destruct (engine (quantity_by_product (store_order db))) as [|r rest]; cbn.
  - split; [intros _|reflexivity]. apply Permutation_nil. exact Hperm.
  - split; [discriminate|]. intros Hnil. rewrite Hnil in Hperm.
    apply Permutation_sym, Permutation_nil in Hperm. discriminate.
Qed.

Lemma top_selling_is_group db k total :
  top_selling engine db = Some (k, total) ->
  (exists o, In o (store_order db) /\ Order.product_id o = k)
  /\ total = sql_sum (map Order.quantity (group_of k (store_order db))).
Proof.
  unfold top_selling. destruct (engine_sorts (quantity_by_product (store_order db)))
    as [Hperm _].
  destruct (engine (quantity_by_product (store_order db))) as [|r rest]; cbn;
    [discriminate|].
  intros H. injection H as ->. apply quantity_by_product_In.
  apply (Permutation_in _ Hperm). now left.
Qed.

Lemma top_selling_is_max db k total o x y :
  top_selling engine db = Some (k, total) ->
  In o (store_order db) ->
  total = Some x ->
  sql_sum (map Order.quantity (group_of (Order.product_id o) (store_order db)))
  = Some y ->
  y <= x.
Proof.
  unfold top_selling. destruct (engine_sorts (quantity_by_product (store_order db)))
    as [Hperm Hsorted].
  destruct (engine (quantity_by_product (store_order db))) as [|r0 rest]; cbn;
    [discriminate|].
  intros H Ho Hx Hy. injection H as ->.
  assert (Hin : In (Order.product_id o, Some y) ((k, total) :: rest)).
  { apply (Permutation_in _ (Permutation_sym Hperm)).
    apply quantity_by_product_In. split; [now exists o|now rewrite Hy]. }
  destruct Hin as [Heq|Hin].
  - injection Heq as _ Heq. rewrite Hx in Heq. injection Heq as ->. lia.
  - apply StronglySorted_inv in Hsorted. destruct Hsorted as [_ Hall].
    rewrite Forall_forall in Hall. now apply (Hall _ Hin x y).
Qed.

(** The winning group, once its id resolves to a product, is the list of
    orders the revenue loop runs over, and it is not empty. *)
Lemma top_selling_orders db k total p :
  top_selling engine db = Some (k, total) ->
  product_by_id db k = Some p ->
  group_of k (store_order db) = orders_of_product db (Product.id p)
  /\ orders_of_product db (Product.id p) <> []
  /\ total = sql_sum (map Order.quantity (orders_of_product db (Product.id p))).
Proof.
  intros Htop Hp. destruct (product_by_id_found db k p Hp) as [_ ->].
  destruct (top_selling_is_group db _ total Htop) as [[o [Ho Hk]] Htotal].
  rewrite group_of_product in Htotal. rewrite group_of_product.
  split; [reflexivity|]. split; [|exact Htotal].
  pose proof (group_of_own o _ Ho) as Hin.
  rewrite Hk, group_of_product in Hin. intros Hnil. rewrite Hnil in Hin.
  contradiction.
Qed.

End Engine_facts.

(** C7.  The highest-selling endpoint groups the orders by product id and
    sums the quantity of each group; the row it takes is one of these
    groups and no group has a larger total.  It returns that product with
    the total and with the running sum of quantity times current
    effective price over the product's orders, and whatever it returns is
    of that form.  It fails with NotFound exactly when there is no order
    or the id of the winning group resolves to no product. *)
Theorem highest_selling_product engine db :
  sorts_by_total_desc engine ->
  (fails_not_found (get_highest_selling_product engine db)
   <-> store_order db = []
       \/ exists k total,
            top_selling engine db = Some (k, total)
            /\ product_by_id db k = None)
  /\ (store_order db <> [] ->
      exists k total, top_selling engine db = Some (k, total))
  /\ (forall k total,
        top_selling engine db = Some (k, total) ->
        (exists o, In o (store_order db) /\ Order.product_id o = k)
        /\ total = sql_sum (map Order.quantity (group_of k (store_order db)))
        /\ (forall o x y,
              In o (store_order db) ->
              total = Some x ->
              sql_sum (map Order.quantity
                         (group_of (Order.product_id o) (store_order db)))
              = Some y ->
              y <= x)
        /\ ((forall o, In o (store_order db) -> Order.quantity o <> None) ->
            exists x,
              total = Some x
              /\ forall o,
                   In o (store_order db) ->
                   exists y,
                     sql_sum (map Order.quantity
                                (group_of (Order.product_id o) (store_order db)))
                     = Some y
                     /\ y <= x)
        /\ (forall p s pr quantities,
              product_by_id db k = Some p ->
              Product.price p = Some pr ->
              (truthy (Product.is_sale p) = true ->
               Product.sale_price p = Some s) ->
              map Order.quantity (group_of k (store_order db))
              = map Some quantities ->
              get_highest_selling_product engine db
              = ret (ProductAnalysisResponse.mk (Product.id p) (Product.name p)
                       (revenue_of
                          (effective_price (truthy (Product.is_sale p)) s pr)
                          quantities)
                       (Some (quantity_of quantities)))))
  /\ (forall r,
        get_highest_selling_product engine db = ret r ->
        exists k total p quantities e,
          top_selling engine db = Some (k, total)
          /\ product_by_id db k = Some p
          /\ map Order.quantity (group_of k (store_order db))
             = map Some quantities
          /\ unit_price p = ret (Some e)
          /\ r = ProductAnalysisResponse.mk (Product.id p) (Product.name p)
                   (revenue_of e quantities) (Some (quantity_of quantities))).
Proof.
  intros Hengine. split; [|split; [|split]].
  - unfold get_highest_selling_product.
    destruct (top_selling engine db) as [[k total]|] eqn:Htop.
    + assert (Hsome : store_order db <> []).
      { intros Hnil. apply (top_selling_None engine Hengine) in Hnil.
        congruence. }
      destruct (product_by_id db k) as [p|] eqn:Hp.
      * split.
        -- intros [detail Hfail]. exfalso.
           destruct (foldM (add_revenue p) (orders_of_product db (Product.id p))
                       0%float) as [e|rev] eqn:Hloop; cbn in Hfail;
             [|discriminate].
           apply (foldM_raises _ _ (add_revenue_raises p)) in Hloop.
           subst e. discriminate.
        -- intros [Hnil|(k' & total' & Heq & Hnone)]; [contradiction|].
           injection Heq as <- <-. congruence.
      * split; [|intros _; eexists; reflexivity].
        intros _. right. now exists k, total.
    + split; [|intros _; eexists; reflexivity].
      intros _. left. now apply (top_selling_None engine Hengine).
  - intros Hsome. destruct (top_selling engine db) as [[k total]|] eqn:Htop.
    + now exists k, total.
    + apply (top_selling_None engine Hengine) in Htop. contradiction.
  - intros k total Htop.
    destruct (top_selling_is_group engine Hengine db k total Htop)
      as [Hsome Htotal].
    split; [exact Hsome|]. split; [exact Htotal|]. split; [|split].
    + intros o x y. now apply (top_selling_is_max engine Hengine db k total).
    + intros Hall. destruct Hsome as [o0 [Ho0 Hk]].
      destruct (group_total_some o0 _ Ho0 (Hall o0 Ho0)) as [x Hx].
      rewrite Hk, <- Htotal in Hx. exists x. split; [exact Hx|].
      intros o Ho. destruct (group_total_some o _ Ho (Hall o Ho)) as [y Hy].
      exists y. split; [exact Hy|].
      now apply (top_selling_is_max engine Hengine db k total o x y).
    + intros p s pr quantities Hp Hpr Hs Hqs.
      destruct (top_selling_orders engine Hengine db k total p Htop Hp)
        as (Hgroup & Hsome' & Htotal').
      unfold get_highest_selling_product. rewrite Htop, Hp.
      rewrite Hgroup in Hqs.
      rewrite (revenue_loop p _ _ quantities _ (unit_price_rule p s pr Hpr Hs) Hqs).
      cbn. do 3 f_equal. rewrite Htotal', Hqs. apply sql_sum_populated.
      intros ->. destruct (orders_of_product db (Product.id p));
        [contradiction|discriminate].
  - intros r. unfold get_highest_selling_product.
    destruct (top_selling engine db) as [[k total]|] eqn:Htop; [|discriminate].
    destruct (product_by_id db k) as [p|] eqn:Hp; [|discriminate].
    destruct (foldM (add_revenue p) (orders_of_product db (Product.id p)) 0%float)
      as [e|rev] eqn:Hloop; cbn; [discriminate|].
    intros H. injection H as <-.
    destruct (top_selling_orders engine Hengine db k total p Htop Hp)
      as (Hgroup & Hsome & Htotal).
    destruct (revenue_loop_returns p _ _ _ Hloop)
      as (quantities & Hqs & [[Hnil _]|(e & He & ->)]); [contradiction|].
    exists k, total, p, quantities, e.
    split; [reflexivity|]. split; [exact Hp|].
    split; [now rewrite Hgroup|]. split; [exact He|].
    unfold revenue_of. do 2 f_equal. rewrite Htotal, Hqs.
    apply sql_sum_populated. intros ->.
    destruct (orders_of_product db (Product.id p)); [contradiction|discriminate].
Qed.

(** The insertion engine meets the promise of [ORDER BY ... DESC]. *)
Lemma total_geb_trans a b c :
  total_geb a b = true -> total_geb b c = true -> total_geb a c = true.
Proof.
  unfold total_geb. destruct (snd a), (snd b), (snd c); intros H1 H2;
    try reflexivity; try discriminate.
  apply Z.leb_le in H1, H2. apply Z.leb_le. lia.
Qed.

Lemma total_geb_total a b : total_geb a b = false -> total_geb b a = true.
Proof.
  unfold total_geb. destruct (snd a), (snd b); intros H;
    try reflexivity; try discriminate.
  apply Z.leb_gt in H. apply Z.leb_le. lia.
Qed.

Lemma insert_total_desc_perm r sorted :
  Permutation (insert_total_desc r sorted) (r :: sorted).
Proof.
  induction sorted as [|r' rest IH]; cbn; [reflexivity|].
  destruct (total_geb r r'); [reflexivity|].
  rewrite IH. apply perm_swap.
Qed.

Lemma insert_total_desc_sorted r sorted :
  StronglySorted (fun a b => total_geb a b = true) sorted ->
  StronglySorted (fun a b => total_geb a b = true) (insert_total_desc r sorted).
Proof.
  induction sorted as [|r' rest IH]; cbn; intros Hs.
  - repeat constructor.
  - apply StronglySorted_inv in Hs. destruct Hs as [Hrest Hall].
    destruct (total_geb r r') eqn:E.
    + constructor; [now constructor|]. constructor; [exact E|].
      rewrite Forall_forall in *. intros x Hx.
      apply total_geb_trans with (b := r'); [exact E|now apply Hall].
    + constructor; [now apply IH|].
      rewrite Forall_forall in *. intros x Hx.
      apply (Permutation_in _ (insert_total_desc_perm r rest)) in Hx.
      destruct Hx as [<-|Hx]; [now apply total_geb_total|now apply Hall].
Qed.

Lemma insertion_engine_sorts : sorts_by_total_desc insertion_order_by_total_desc.
Proof.
  intros rows. unfold insertion_order_by_total_desc. split.
  - induction rows as [|r rows IH]; cbn; [reflexivity|].
    rewrite insert_total_desc_perm. now constructor.
  - apply StronglySorted_ind
      with (R := fun a b => total_geb a b = true)
           (P := StronglySorted total_ge).
    + constructor.
    + intros a l _ IH Hall. constructor; [exact IH|].
      rewrite Forall_forall in *. intros x Hx a' x' Ha Hx'.
      specialize (Hall x Hx). unfold total_geb in Hall.
      rewrite Ha, Hx' in Hall. now apply Z.leb_le.
    + induction rows as [|r rows IH]; cbn; [constructor|].
      now apply insert_total_desc_sorted.
Qed.

Lemma highest_selling_product_witness :
  get_highest_selling_product insertion_order_by_total_desc Sample.shop
  = ret (ProductAnalysisResponse.mk 2 "Pen" 12.5%float (Some 5))
  /\ ~ fails_not_found
         (get_highest_selling_product insertion_order_by_total_desc Sample.shop)
  /\ fails_not_found
       (get_highest_selling_product insertion_order_by_total_desc Sample.empty).
Proof.
  destruct (highest_selling_product insertion_order_by_total_desc Sample.shop
              insertion_engine_sorts)
    as (Hfail & _ & Hrow & _).
  destruct (Hrow (Some 2) (Some 5) eq_refl) as (_ & _ & _ & _ & Hret).
  destruct (highest_selling_product insertion_order_by_total_desc Sample.empty
              insertion_engine_sorts)
    as (Hempty & _).
  split; [|split].
  - exact (Hret Sample.pen 0%float 2.5%float [5] eq_refl eq_refl
             (fun H => eq_refl) eq_refl).
  - intros H. apply Hfail in H.
    destruct H as [H|(k & total & Htop & Hnone)]; [discriminate H|].
    vm_compute in Htop. injection Htop as <- <-. discriminate Hnone.
  - apply Hempty. left. reflexivity.
Defined.

(* ================================================================== *)
(** * Customer creation *)
(* ================================================================== *)

Lemma find_app_none {A} (f : A -> bool) l x :
  find f l = None -> find f (l ++ [x]) = if f x then Some x else None.
Proof.
  induction l as [|a l IH]; cbn; [reflexivity|].
  destruct (f a); [discriminate|exact IH].
Qed.

Lemma find_none_filter {A} (f : A -> bool) l :
  find f l = None -> filter f l = [].
Proof.
  induction l as [|a l IH]; cbn; [reflexivity|].
  destruct (f a); [discriminate|exact IH].
Qed.

Lemma customer_by_email_found db email c :
  customer_by_email db email = Some c -> Customer.email c = Some email.
Proof.
  unfold customer_by_email. intros H. apply find_some in H.
  destruct H as [_ H]. unfold col_eq_str in H.
  destruct (Customer.email c) as [e|]; [|discriminate].
  apply String.eqb_eq in H. now subst.
Qed.

Lemma create_customer_existing customer db existing :
  customer_by_email db (CustomerCreate.email customer) = Some existing ->
  create_customer customer db = (db, ret existing).
Proof. intros H. unfold create_customer. rewrite H. reflexivity. Qed.

(** After a creation, the email resolves to the record that was
    returned. *)
Lemma create_customer_registers customer db :
  exists c,
    snd (create_customer customer db) = ret c
    /\ customer_by_email (fst (create_customer customer db))
         (CustomerCreate.email customer) = Some c.
Proof.
  unfold create_customer.
  destruct (customer_by_email db (CustomerCreate.email customer)) as [c|] eqn:H.
  - exists c. split; [reflexivity|exact H].
  - eexists. split; [reflexivity|]. cbn [fst].
    unfold customer_by_email in *. cbn [store_customer].
    rewrite (find_app_none _ _ _ H). cbn. rewrite String.eqb_refl.
    reflexivity.
Qed.

(** C8.  Creating a customer returns a record with the email; creating
    again with the same email returns that same record and leaves the
    store as it is; when the email was registered already the existing
    record is returned without an error, and when it was not, exactly one
    record carries it afterwards. *)
Theorem create_customer_idempotent customer db :
  exists c,
    snd (create_customer customer db) = ret c
    /\ Customer.email c = Some (CustomerCreate.email customer)
    /\ (forall again,
          CustomerCreate.email again = CustomerCreate.email customer ->
          create_customer again (fst (create_customer customer db))
          = (fst (create_customer customer db), ret c))
    /\ (forall existing,
          customer_by_email db (CustomerCreate.email customer) = Some existing ->
          create_customer customer db = (db, ret existing))
    /\ (customer_by_email db (CustomerCreate.email customer) = None ->
        filter (fun x => col_eq_str (Customer.email x)
                           (CustomerCreate.email customer))
               (store_customer (fst (create_customer customer db)))
        = [c]).
Proof.
  destruct (create_customer_registers customer db) as (c & Hret & Hreg).
  exists c. split; [exact Hret|].
  split; [now apply customer_by_email_found in Hreg|].
  split.
  { intros again Hemail. apply create_customer_existing.
    rewrite Hemail. exact Hreg. }
  split; [apply create_customer_existing|].
  intros Hnone. revert Hret. unfold create_customer. rewrite Hnone. cbn.
  intros Hret. injection Hret as <-.
  rewrite filter_app. unfold customer_by_email in Hnone.
  rewrite (find_none_filter _ _ Hnone). cbn.
  rewrite String.eqb_refl. reflexivity.
Qed.

Lemma create_customer_idempotent_witness :
  exists c,
    snd (create_customer Sample.bob Sample.shop) = ret c
    /\ Customer.id c = 2
    /\ create_customer Sample.bob (fst (create_customer Sample.bob Sample.shop))
       = (fst (create_customer Sample.bob Sample.shop), ret c)
    /\ List.length
         (store_customer (fst (create_customer Sample.bob Sample.shop)))
       = 2%nat.
Proof.
  destruct (create_customer_idempotent Sample.bob Sample.shop)
    as (c & Hret & _ & Hagain & _).
  exists c. split; [exact Hret|].
  split; [injection Hret as <-; reflexivity|].
  split; [exact (Hagain Sample.bob eq_refl)|reflexivity].
Defined.

(* ================================================================== *)
(** * Product upsert *)
(* ================================================================== *)

Lemma product_by_id_write_product db row p :
  product_by_id db (Some (Product.id row)) = Some p ->
  product_by_id (write_product row db) (Some (Product.id row)) = Some row.
Proof.
  unfold product_by_id, write_product. cbn.
  induction (store_product db) as [|x rows IH]; cbn; [discriminate|].
  destruct (Product.id x =? Product.id row) eqn:E; cbn.
  - rewrite Z.eqb_refl. reflexivity.
  - rewrite E. exact IH.
Qed.

(** C9, as the code has it.  When no product has the id and the payload
    carries a name, a product with that id is created from the payload,
    each field without a value taking its column default; without a name
    the insert is rejected and nothing is created.  When the product
    exists, each field the payload carries is overwritten and each field
    it leaves out stays as it was; a payload that sets the name to null
    is rejected and changes nothing. *)
Theorem update_product_upsert product_id product db :
  (product_by_id db (Some product_id) = None ->
   (forall name,
      dict_value (ProductUpdate.name product) = Some name ->
      exists row,
        update_product product_id product db
        = (mkDB (store_product db ++ [row]) (store_customer db) (store_order db),
           ret row)
        /\ product_by_id (fst (update_product product_id product db))
             (Some product_id) = Some row
        /\ Product.id row = product_id
        /\ Product.name row = name
        /\ field_inserted (ProductUpdate.price product) (Some 0%float)
             (Product.price row)
        /\ field_inserted (ProductUpdate.category_id product) (Some 1)
             (Product.category_id row)
        /\ field_inserted (ProductUpdate.description product) (Some "")
             (Product.description row)
        /\ field_inserted (ProductUpdate.image product) None (Product.image row)
        /\ field_inserted (ProductUpdate.is_sale product) (Some false)
             (Product.is_sale row)
        /\ field_inserted (ProductUpdate.sale_price product) (Some 0%float)
             (Product.sale_price row))
   /\ (dict_value (ProductUpdate.name product) = None ->
       update_product product_id product db = (db, raise IntegrityError)))
  /\ (forall p,
        product_by_id db (Some product_id) = Some p ->
        (ProductUpdate.name product <> Provided None ->
         exists row,
           update_product product_id product db
           = (write_product row db, ret row)
           /\ product_by_id (fst (update_product product_id product db))
                (Some product_id) = Some row
           /\ Product.id row = product_id
           /\ field_applied (ProductUpdate.name product)
                (Some (Product.name p)) (Some (Product.name row))
           /\ field_applied (ProductUpdate.price product)
                (Product.price p) (Product.price row)
           /\ field_applied (ProductUpdate.category_id product)
                (Product.category_id p) (Product.category_id row)
           /\ field_applied (ProductUpdate.description product)
                (Product.description p) (Product.description row)
           /\ field_applied (ProductUpdate.image product)
                (Product.image p) (Product.image row)
           /\ field_applied (ProductUpdate.is_sale product)
                (Product.is_sale p) (Product.is_sale row)
           /\ field_applied (ProductUpdate.sale_price product)
                (Product.sale_price p) (Product.sale_price row))
        /\ (ProductUpdate.name product = Provided None ->
            update_product product_id product db = (db, raise IntegrityError))).
Proof.
  split.
  - intros Hnone. unfold update_product. rewrite Hnone. unfold insert_product.
    split.
    + intros name Hname. rewrite Hname. eexists. split; [reflexivity|].
      cbn [fst]. split.
      { unfold product_by_id in *. cbn [store_product].
        rewrite (find_app_none _ _ _ Hnone). cbn. rewrite Z.eqb_refl.
        reflexivity. }
      cbn. unfold field_inserted.
      destruct (dict_value (ProductUpdate.price product)),
        (dict_value (ProductUpdate.category_id product)),
        (dict_value (ProductUpdate.description product)),
        (dict_value (ProductUpdate.image product)),
        (dict_value (ProductUpdate.is_sale product)),
        (dict_value (ProductUpdate.sale_price product));
        repeat split; reflexivity.
    + intros Hname. rewrite Hname. reflexivity.
  - intros p Hp. unfold update_product. rewrite Hp.
    destruct (product_by_id_found db _ p Hp) as [_ Hid].
    injection Hid as ->. split.
    + intros Hname. unfold set_product_fields.
      destruct (ProductUpdate.name product) as [|[n|]] eqn:En;
        [| |congruence]; cbn -[write_product];
        (eexists; split; [reflexivity|]; cbn [fst];
         split;
         [ match goal with
           | |- product_by_id (write_product ?row db) _ = _ =>
               exact (product_by_id_write_product db row p Hp)
           end
         | cbn; unfold field_applied, updated;
           destruct (ProductUpdate.price product),
             (ProductUpdate.category_id product),
             (ProductUpdate.description product),
             (ProductUpdate.image product),
             (ProductUpdate.is_sale product),
             (ProductUpdate.sale_price product);
           repeat split; reflexivity ]).
    + intros Hname. unfold set_product_fields. rewrite Hname. reflexivity.
Qed.

(** C9 as stated fails: no product has id 7, the payload carries a price
    and no name, and the endpoint creates nothing. *)
Lemma update_product_nameless_creates_nothing :
  product_by_id Sample.empty (Some 7) = None
  /\ update_product 7 Sample.price_only Sample.empty
     = (Sample.empty, raise IntegrityError)
  /\ product_by_id (fst (update_product 7 Sample.price_only Sample.empty))
       (Some 7) = None.
Proof. repeat split. Qed.

Lemma update_product_upsert_witness :
  (exists row,
     snd (update_product 7 Sample.named Sample.empty) = ret row
     /\ Product.id row = 7
     /\ Product.name row = "Cup"
     /\ Product.price row = Some 9.5%float
     /\ Product.is_sale row = Some false)
  /\ (exists row,
        product_by_id (fst (update_product 1 Sample.price_only Sample.shop))
          (Some 1) = Some row
        /\ Product.name row = "Mug"
        /\ Product.price row = Some 9.5%float
        /\ Product.sale_price row = Some 80%float).
Proof.
  destruct (update_product_upsert 7 Sample.named Sample.empty)
    as [Hcreate _].
  destruct (Hcreate eq_refl) as [Hnamed _].
  destruct (Hnamed "Cup" eq_refl)
    as (row & Hrun & _ & Hid & Hname & Hprice & _ & _ & _ & Hsale & _).
  destruct (update_product_upsert 1 Sample.price_only Sample.shop)
    as [_ Hupdate].
  destruct (Hupdate Sample.mug eq_refl) as [Hpartial _].
  destruct Hpartial
    as (row' & _ & Hread & _ & Hname' & Hprice' & _ & _ & _ & _ & Hsale').
  { discriminate. }
  split.
  - exists row. split; [now rewrite Hrun|].
    split; [exact Hid|]. split; [exact Hname|].
    split; [exact Hprice|exact Hsale].
  - exists row'. split; [exact Hread|].
    split; [now injection Hname'|]. split; [exact Hprice'|exact Hsale'].
Defined.

(* ================================================================== *)
(** * Keys, lookups and the write endpoints *)
(* ================================================================== *)

#[local] Arguments autoincrement : simpl never.

Lemma autoincrement_gt ids x : In x ids -> x < autoincrement ids.
Proof.
  unfold autoincrement.
  induction ids as [|y ids IH]; cbn [fold_right In]; [contradiction|].
  intros [->|Hin]; [lia|]. specialize (IH Hin). lia.
Qed.

Lemma autoincrement_fresh ids : ~ In (autoincrement ids) ids.
Proof. intros Hin. apply autoincrement_gt in Hin. lia. Qed.

Lemma find_none_iff {A} (f : A -> bool) l :
  find f l = None <-> forall x, In x l -> f x = false.
Proof.
  split; [apply find_none|].
  induction l as [|a l IH]; cbn; [reflexivity|]. intros Hall.
  rewrite (Hall a (or_introl eq_refl)). apply IH. intros x Hx.
  apply Hall. now right.
Qed.

Lemma find_app_last {A} (f : A -> bool) l x :
  f x = false -> find f (l ++ [x]) = find f l.
Proof.
  intros Hx. induction l as [|a l IH]; cbn; [now rewrite Hx|].
  destruct (f a); [reflexivity|exact IH].
Qed.

Lemma find_filter_other {A} (f g : A -> bool) l :
  (forall x, f x = true -> g x = true) ->
  find f (filter g l) = find f l.
Proof.
  intros Hfg. induction l as [|a l IH]; cbn; [reflexivity|].
  destruct (f a) eqn:Hf.
  - rewrite (Hfg a Hf). cbn. now rewrite Hf.
  - destruct (g a); cbn; [now rewrite Hf|exact IH].
Qed.

Lemma find_filter_gone {A} (f g : A -> bool) l :
  (forall x, f x = true -> g x = false) ->
  find f (filter g l) = None.
Proof.
  intros Hfg. apply find_none_iff. intros x Hx. apply filter_In in Hx.
  destruct Hx as [_ Hg]. destruct (f x) eqn:Hf; [|reflexivity].
  rewrite (Hfg x Hf) in Hg. discriminate.
Qed.

Lemma NoDup_snoc {A} (l : list A) x : NoDup l -> ~ In x l -> NoDup (l ++ [x]).
Proof.
  intros Hl Hx. apply NoDup_app; [exact Hl|repeat constructor; intros []|].
  intros y Hy [<-|[]]. contradiction.
Qed.

Lemma NoDup_map_filter {A B} (f : A -> B) (g : A -> bool) l :
  NoDup (map f l) -> NoDup (map f (filter g l)).
Proof.
  induction l as [|a l IH]; cbn; [intros; constructor|].
  intros Hnd. apply NoDup_cons_iff in Hnd. destruct Hnd as [Hnotin Hnd].
  destruct (g a); cbn; [|now apply IH].
  constructor; [|now apply IH]. intros Hin. apply Hnotin.
  apply in_map_iff in Hin. destruct Hin as [x [Hfx Hx]].
  apply filter_In in Hx. apply in_map_iff. exists x. tauto.
Qed.

(** Writing a row back under its own key leaves the keys as they were. *)
Lemma write_order_ids row db :
  map Order.id (store_order (write_order row db)) = map Order.id (store_order db).
Proof.
  unfold write_order. cbn. rewrite map_map. apply map_ext_in. intros o _.
  destruct (Order.id o =? Order.id row) eqn:E; [|reflexivity].
  apply Z.eqb_eq in E. now symmetry.
Qed.

Lemma write_product_ids row db :
  map Product.id (store_product (write_product row db))
  = map Product.id (store_product db).
Proof.
  unfold write_product. cbn. rewrite map_map. apply map_ext_in. intros p _.
  destruct (Product.id p =? Product.id row) eqn:E; [|reflexivity].
  apply Z.eqb_eq in E. now symmetry.
Qed.

Lemma set_product_fields_id values p row :
  set_product_fields values p = ret row -> Product.id row = Product.id p.
Proof.
  unfold set_product_fields.
  destruct (ProductUpdate.name values) as [|[n|]]; cbn; intros H;
    try discriminate; injection H as <-; reflexivity.
Qed.

Lemma product_by_id_none_ids db product_id :
  product_by_id db (Some product_id) = None ->
  ~ In product_id (map Product.id (store_product db)).
Proof.
  intros Hnone Hin. apply in_map_iff in Hin. destruct Hin as [p [Hid Hp]].
  apply product_by_id_missing in Hnone. apply Hnone. now exists p.
Qed.

Lemma serve_keys_unique r db : keys_unique db -> keys_unique (serve r db).
Proof.
  unfold keys_unique. intros (Hp & Hc & Ho).
  destruct r as [product|product_id product|product_id|customer|today order
                |now order_id order|order_id]; cbn.
  - repeat split; try assumption. rewrite map_app. cbn.
    apply NoDup_snoc; [exact Hp|apply autoincrement_fresh].
  - unfold update_product.
    destruct (product_by_id db (Some product_id)) as [p|] eqn:Hfind.
    + destruct (set_product_fields product p) as [e|row] eqn:Hset; cbn;
        [now repeat split|].
      repeat split; try assumption.
      change (NoDup (map Product.id (store_product (write_product row db)))).
      now rewrite write_product_ids.
    + unfold insert_product.
      destruct (dict_value (ProductUpdate.name product)); cbn;
        [|now repeat split].
      repeat split; try assumption. rewrite map_app. cbn.
      apply NoDup_snoc; [exact Hp|now apply product_by_id_none_ids].
  - unfold delete_product.
    destruct (product_by_id db (Some product_id)); cbn; [|now repeat split].
    repeat split; try assumption. now apply NoDup_map_filter.
  - unfold create_customer.
    destruct (customer_by_email db (CustomerCreate.email customer)); cbn;
      [now repeat split|].
    repeat split; try assumption. rewrite map_app. cbn.
    apply NoDup_snoc; [exact Hc|apply autoincrement_fresh].
  - unfold create_order.
    destruct (product_by_id db (Some (OrderCreate.product_id order))); cbn;
      [|now repeat split].
    destruct (customer_by_id db (Some (OrderCreate.customer_id order))); cbn;
      [|now repeat split].
    repeat split; try assumption. rewrite map_app. cbn.
    apply NoDup_snoc; [exact Ho|apply autoincrement_fresh].
  - unfold update_order.
    destruct (order_by_id db order_id) as [o|]; cbn; [|now repeat split].
    repeat split; try assumption.
    match goal with
    | |- NoDup (map Order.id (map ?f (store_order db))) =>
        change (map f (store_order db))
          with (store_order (write_order (set_order_fields now order o) db))
    end.
    now rewrite write_order_ids.
  - unfold delete_order.
    destruct (order_by_id db order_id); cbn; [|now repeat split].
    repeat split; try assumption. now apply NoDup_map_filter.
Qed.

(** X1.  Primary keys that are unique stay unique through any run of
    write requests: the store's keys are fresh, the upsert only inserts
    under an id that is free, updates keep the id, deletions only
    remove. *)
Theorem keys_stay_unique requests db :
  keys_unique db -> keys_unique (serve_all requests db).
Proof.
  revert db. induction requests as [|r requests IH]; intros db Hdb; cbn;
    [assumption|].
  apply IH. now apply serve_keys_unique.
Qed.

Lemma sample_shop_keys_unique : keys_unique Sample.shop.
Proof.
  unfold keys_unique. cbn.
  repeat split; repeat constructor; cbn; intuition discriminate.
Qed.

Lemma keys_stay_unique_witness :
  keys_unique
    (serve_all [PostProduct More.kettle; PutProduct 9 Sample.named;
                DeleteProduct 2; PostCustomer Sample.bob;
                PostOrder Sample.day More.three_mugs;
                PutOrder Sample.noon 1 Sample.ship; DeleteOrder 2]
               Sample.shop).
Proof.
  apply (keys_stay_unique
           [PostProduct More.kettle; PutProduct 9 Sample.named;
            DeleteProduct 2; PostCustomer Sample.bob;
            PostOrder Sample.day More.three_mugs;
            PutOrder Sample.noon 1 Sample.ship; DeleteOrder 2]
           Sample.shop).
  exact sample_shop_keys_unique.
Defined.

Lemma drop_None_app {A} (l1 l2 : list (option A)) :
  drop_None (l1 ++ l2) = (drop_None l1 ++ drop_None l2)%list.
Proof.
  induction l1 as [|[a|] l1 IH]; cbn; [reflexivity| |exact IH].
  now rewrite IH.
Qed.

Lemma In_drop_None {A} (a : A) l : In a (drop_None l) <-> In (Some a) l.
Proof.
  induction l as [|[b|] l IH]; cbn; [reflexivity| |].
  - rewrite IH. split; intros [H|H]; try (right; exact H); left; congruence.
  - rewrite IH. split; [now right|]. intros [H|H]; [discriminate|exact H].
Qed.

Lemma customer_by_email_none db email :
  customer_by_email db email = None -> ~ In email (emails db).
Proof.
  unfold customer_by_email, emails. intros Hnone Hin.
  apply In_drop_None, in_map_iff in Hin. destruct Hin as [c [Hc Hin]].
  pose proof (find_none _ _ Hnone c Hin) as Hf. cbn in Hf.
  unfold col_eq_str in Hf. rewrite Hc, String.eqb_refl in Hf. discriminate.
Qed.

Lemma serve_emails r db :
  NoDup (emails db) -> NoDup (emails (serve r db)).
Proof.
  intros Hnd.
  destruct r as [product|product_id product|product_id|customer|today order
                |now order_id order|order_id]; cbn.
  - exact Hnd.
  - unfold update_product.
    destruct (product_by_id db (Some product_id)) as [p|].
    + destruct (set_product_fields product p); exact Hnd.
    + unfold insert_product.
      destruct (dict_value (ProductUpdate.name product)); exact Hnd.
  - unfold delete_product.
    destruct (product_by_id db (Some product_id)); exact Hnd.
  - unfold create_customer.
    destruct (customer_by_email db (CustomerCreate.email customer)) eqn:Hfind;
      [exact Hnd|].
    unfold emails. cbn. rewrite map_app, drop_None_app. cbn.
    apply NoDup_snoc; [exact Hnd|now apply customer_by_email_none].
  - unfold create_order.
    destruct (product_by_id db (Some (OrderCreate.product_id order)));
      [|exact Hnd].
    destruct (customer_by_id db (Some (OrderCreate.customer_id order)));
      exact Hnd.
  - unfold update_order. destruct (order_by_id db order_id); exact Hnd.
  - unfold delete_order. destruct (order_by_id db order_id); exact Hnd.
Qed.

Lemma create_sample_data_emails today now store_category db :
  NoDup (emails db) ->
  NoDup (emails (snd (fst (create_sample_data today now store_category db)))).
Proof.
  intros Hnd. unfold create_sample_data.
  destruct (store_order db); [|exact Hnd].
  destruct (customer_by_email db "john.doe@example.com") eqn:Hfind;
    [exact Hnd|].
  unfold emails. cbn [fst snd store_customer].
  rewrite map_app, drop_None_app. cbn [map Customer.email drop_None].
  apply NoDup_snoc; [exact Hnd|now apply customer_by_email_none].
Qed.

Lemma serve_write_emails w tables :
  NoDup (emails (snd tables)) -> NoDup (emails (snd (serve_write w tables))).
Proof.
  destruct w as [r|today now]; cbn [serve_write snd].
  - apply serve_emails.
  - apply create_sample_data_emails.
Qed.

(** X2.  No two customers share an email after any run of write requests,
    the sample-data request among them, if none did before: customer
    creation looks the email up first and inserts only when it is not on
    record, and the sample customer is inserted only when the store
    accepts its email as new. *)
Theorem emails_stay_unique writes tables :
  NoDup (emails (snd tables)) ->
  NoDup (emails (snd (serve_writes writes tables))).
Proof.
  revert tables. induction writes as [|w writes IH]; intros tables Hnd; cbn;
    [assumption|].
  apply IH. now apply serve_write_emails.
Qed.

Lemma emails_stay_unique_witness :
  NoDup (emails (snd (serve_writes
                        [Request (PostCustomer Sample.bob);
                         Request (DeleteOrder 1); Request (DeleteOrder 2);
                         Request (DeleteOrder 3);
                         PostSampleData Sample.day Sample.noon;
                         Request (PostCustomer Sample.bob)]
                        ([], Sample.shop))))
  /\ emails (snd (serve_writes
                    [Request (PostCustomer Sample.bob);
                     Request (DeleteOrder 1); Request (DeleteOrder 2);
                     Request (DeleteOrder 3);
                     PostSampleData Sample.day Sample.noon;
                     Request (PostCustomer Sample.bob)]
                    ([], Sample.shop)))
     = ["ann@example.com"; "bob@example.com"; "john.doe@example.com"].
Proof.
  split; [|reflexivity].
  apply (emails_stay_unique
           [Request (PostCustomer Sample.bob);
            Request (DeleteOrder 1); Request (DeleteOrder 2);
            Request (DeleteOrder 3);
            PostSampleData Sample.day Sample.noon;
            Request (PostCustomer Sample.bob)]
           ([], Sample.shop)).
  repeat constructor; cbn; intuition discriminate.
Defined.

Lemma serve_shipping_invariant r db :
  Forall shipped_iff_dated (store_order db) ->
  Forall shipped_iff_dated (store_order (serve r db)).
Proof.
  intros Hall.
  destruct r as [product|product_id product|product_id|customer|today order
                |now order_id order|order_id]; cbn.
  - exact Hall.
  - unfold update_product.
    destruct (product_by_id db (Some product_id)) as [p|].
    + destruct (set_product_fields product p); exact Hall.
    + unfold insert_product.
      destruct (dict_value (ProductUpdate.name product)); exact Hall.
  - unfold delete_product.
    destruct (product_by_id db (Some product_id)); exact Hall.
  - unfold create_customer.
    destruct (customer_by_email db (CustomerCreate.email customer)); exact Hall.
  - unfold create_order.
    destruct (product_by_id db (Some (OrderCreate.product_id order)));
      [|exact Hall].
    destruct (customer_by_id db (Some (OrderCreate.customer_id order)));
      [|exact Hall].
    cbn. apply Forall_app. split; [exact Hall|].
    constructor; [|constructor]. unfold shipped_iff_dated. cbn.
    split; intros H; [discriminate|congruence].
  - now apply update_order_invariant.
  - unfold delete_order. destruct (order_by_id db order_id); [|exact Hall].
    cbn. rewrite Forall_forall in *. intros o Ho. apply filter_In in Ho.
    now apply Hall.
Qed.

Lemma create_sample_data_shipping_invariant today now store_category db :
  Forall shipped_iff_dated (store_order db) ->
  Forall shipped_iff_dated
    (store_order (snd (fst (create_sample_data today now store_category db)))).
Proof.
  intros Hall. unfold create_sample_data.
  destruct (store_order db) eqn:Horders;
    [|cbn [fst snd]; rewrite Horders; exact Hall].
  destruct (customer_by_email db "john.doe@example.com");
    [cbn [fst snd]; rewrite Horders; exact Hall|].
  cbn [fst snd store_order app].
  constructor; [|constructor; [|constructor]]; unfold shipped_iff_dated;
    cbn [Order.status Order.date_shipped]; split; intros H;
    try discriminate; congruence.
Qed.

Lemma serve_write_shipping_invariant w tables :
  Forall shipped_iff_dated (store_order (snd tables)) ->
  Forall shipped_iff_dated (store_order (snd (serve_write w tables))).
Proof.
  destruct w as [r|today now]; cbn [serve_write snd].
  - apply serve_shipping_invariant.
  - apply create_sample_data_shipping_invariant.
Qed.

(** X3.  The shipping invariant [(status == true) == (date_shipped is not
    None)] survives any run of write requests, not only updates: a new
    order is stored unshipped and without a shipping date, the sample-data
    request stores one unshipped order without a date and one shipped
    order with one, and the other endpoints leave the orders they keep as
    they are. *)
Theorem shipping_invariant_through_writes writes tables :
  Forall shipped_iff_dated (store_order (snd tables)) ->
  Forall shipped_iff_dated (store_order (snd (serve_writes writes tables))).
Proof.
  revert tables. induction writes as [|w writes IH]; intros tables Hall; cbn;
    [assumption|].
  apply IH. now apply serve_write_shipping_invariant.
Qed.

Lemma shipping_invariant_through_writes_witness :
  Forall shipped_iff_dated
    (store_order
       (snd (serve_writes
               [PostSampleData Sample.day Sample.noon;
                Request (PostOrder Sample.day (OrderCreate.mk 1 1 3 None None));
                Request (PutOrder Sample.noon 3 Sample.ship);
                Request (PutOrder Sample.later 2 Sample.unship);
                Request (DeleteOrder 1)]
               ([], Sample.empty))))
  /\ map Order.status
       (store_order
          (snd (serve_writes
                  [PostSampleData Sample.day Sample.noon;
                   Request (PostOrder Sample.day
                              (OrderCreate.mk 1 1 3 None None));
                   Request (PutOrder Sample.noon 3 Sample.ship);
                   Request (PutOrder Sample.later 2 Sample.unship);
                   Request (DeleteOrder 1)]
                  ([], Sample.empty))))
     = [Some false; Some true].
Proof.
  split; [|reflexivity].
  apply (shipping_invariant_through_writes
           [PostSampleData Sample.day Sample.noon;
            Request (PostOrder Sample.day (OrderCreate.mk 1 1 3 None None));
            Request (PutOrder Sample.noon 3 Sample.ship);
            Request (PutOrder Sample.later 2 Sample.unship);
            Request (DeleteOrder 1)]
           ([], Sample.empty)).
  constructor.
Defined.

(* ================================================================== *)
(** * Order creation and deletion *)
(* ================================================================== *)

(** The row [POST /orders] stores. *)
Lemma create_order_found today order db p c :
  product_by_id db (Some (OrderCreate.product_id order)) = Some p ->
  customer_by_id db (Some (OrderCreate.customer_id order)) = Some c ->
  exists o,
    fst (create_order today order db)
    = mkDB (store_product db) (store_customer db) (store_order db ++ [o])
    /\ Order.id o = autoincrement (map Order.id (store_order db))
    /\ Order.product_id o = Some (OrderCreate.product_id order)
    /\ Order.customer_id o = Some (OrderCreate.customer_id order)
    /\ Order.quantity o = Some (OrderCreate.quantity order)
    /\ Order.date o = Some today
    /\ Order.status o = Some false
    /\ Order.date_shipped o = None
    /\ order_by_id (fst (create_order today order db)) (Order.id o) = Some o
    /\ snd (create_order today order db)
       = (price <- unit_price p ;;
          fprice <- float_ price ;;
          amount_paid <- mul_float_int fprice (Order.quantity o) ;;
          ret (OrderResponse.mk (Order.id o) (Order.product_id o)
                 (Order.customer_id o) (Order.quantity o) (Order.address o)
                 (Order.phone o) (option_map isoformat_date (Order.date o))
                 (Order.status o)
                 (option_map isoformat (Order.date_shipped o))
                 amount_paid (Customer.email c))).
Proof.
  intros Hp Hc. unfold create_order. rewrite Hp, Hc. cbn [fst snd].
  eexists. split; [reflexivity|]. cbn [Order.id Order.product_id
    Order.customer_id Order.quantity Order.date Order.status
    Order.date_shipped].
  repeat (split; [reflexivity|]). split; [|reflexivity].
  unfold order_by_id. cbn [store_order].
  rewrite find_app_none.
  - cbn. now rewrite Z.eqb_refl.
  - apply find_none_iff. intros x Hx. apply Z.eqb_neq. intros Heq.
    apply (autoincrement_fresh (map Order.id (store_order db))).
    rewrite <- Heq. now apply in_map.
Qed.



(** X5.  An order that [POST /orders] answered for can be fetched with
    [GET /orders/{id}] under the id of the answer, and the view shows the
    same amount, the same customer email, and an unshipped order. *)
Theorem create_order_then_get_order today order db r :
  snd (create_order today order db) = ret r ->
  exists v,
    get_order (OrderResponse.id r) (fst (create_order today order db)) = ret v
    /\ DjangoOrderResponse.id v = OrderResponse.id r
    /\ DjangoOrderResponse.amount_paid v = OrderResponse.amount_paid r
    /\ DjangoOrderResponse.email v = OrderResponse.customer_email r
    /\ DjangoOrderResponse.shipped v = Some false
    /\ DjangoOrderResponse.date_shipped v = None.
Proof.
  intros Hret.
  destruct (product_by_id db (Some (OrderCreate.product_id order)))
    as [p|] eqn:Hp;
    [|unfold create_order in Hret; rewrite Hp in Hret; discriminate].
  destruct (customer_by_id db (Some (OrderCreate.customer_id order)))
    as [c|] eqn:Hc;
    [|unfold create_order in Hret; rewrite Hp, Hc in Hret; discriminate].
  destruct (create_order_found today order db p c Hp Hc)
    as (o & Hdb & Hid & Hpid & Hcid & Hq & _ & Hst & Hds & Hread & Hsnd).
  rewrite Hsnd in Hret.
  destruct (unit_price p) as [e|[price|]] eqn:Hprice; cbn in Hret;
    try discriminate.
  rewrite Hq in Hret. cbn in Hret. injection Hret as <-. cbn [OrderResponse.id
    OrderResponse.amount_paid OrderResponse.customer_email].
  unfold get_order. rewrite Hread. unfold enrich_order_details.
  rewrite Hdb, Hpid, Hcid.
  change (product_by_id (mkDB (store_product db) (store_customer db)
                           (store_order db ++ [o]))
            (Some (OrderCreate.product_id order)))
    with (product_by_id db (Some (OrderCreate.product_id order))).
  change (customer_by_id (mkDB (store_product db) (store_customer db)
                            (store_order db ++ [o]))
            (Some (OrderCreate.customer_id order)))
    with (customer_by_id db (Some (OrderCreate.customer_id order))).
  rewrite Hp, Hc, Hprice. cbn. rewrite Hq. cbn. eexists.
  split; [reflexivity|]. cbn. rewrite Hst, Hds. repeat split; reflexivity.
Qed.

Lemma create_order_then_get_order_witness :
  exists v,
    get_order 4 (fst (create_order Sample.day More.three_mugs Sample.shop))
    = ret v
    /\ DjangoOrderResponse.amount_paid v = 240%float.
Proof.
  destruct (create_order_then_get_order Sample.day More.three_mugs Sample.shop
              (OrderResponse.mk 4 (Some 1) (Some 1) (Some 3) (Some "")
                 (Some "") (Some "2024-05-17") (Some false) None 240%float
                 (Some "ann@example.com")) eq_refl)
    as (v & Hget & _ & Hamount & _).
  exists v. split; [exact Hget|exact Hamount].
Defined.



(** X7.  Deleting an order that does not exist fails with NotFound and
    changes nothing.  Deleting one that exists removes it, so that a
    lookup or a second deletion fails with NotFound, while every other
    order is read back as before and products and customers are left
    alone. *)
Theorem delete_order_outcome order_id db :
  (order_by_id db order_id = None ->
   delete_order order_id db = (db, raise (HTTPException 404 "Order not found")))
  /\ (order_by_id db order_id <> None ->
      snd (delete_order order_id db)
      = ret (MessageResponse.mk
               ("Order " ++ str_int order_id ++ " deleted successfully"))
      /\ get_order order_id (fst (delete_order order_id db))
         = raise (HTTPException 404 "Order not found")
      /\ delete_order order_id (fst (delete_order order_id db))
         = (fst (delete_order order_id db),
            raise (HTTPException 404 "Order not found"))
      /\ (forall other,
            other <> order_id ->
            order_by_id (fst (delete_order order_id db)) other
            = order_by_id db other)
      /\ store_product (fst (delete_order order_id db)) = store_product db
      /\ store_customer (fst (delete_order order_id db)) = store_customer db).
Proof.
  split.
  - intros Hnone. unfold delete_order. now rewrite Hnone.
  - intros Hsome.
    destruct (order_by_id db order_id) as [o|] eqn:Hfind; [|congruence].
    destruct (order_by_id_found _ _ _ Hfind) as [_ Hid].
    assert (Hgone : order_by_id (fst (delete_order order_id db)) order_id = None).
    { unfold delete_order. rewrite Hfind. cbn. unfold order_by_id. cbn.
      apply find_filter_gone. intros x Hx. rewrite Hid.
      now rewrite Hx. }
    split; [unfold delete_order; now rewrite Hfind|].
    split; [unfold get_order; now rewrite Hgone|].
    split; [unfold delete_order at 1; now rewrite Hgone|].
    split; [|unfold delete_order; rewrite Hfind; split; reflexivity].
    intros other Hother. unfold delete_order. rewrite Hfind. cbn.
    unfold order_by_id. cbn. apply find_filter_other.
    intros x Hx. apply Z.eqb_eq in Hx. rewrite Hx, Hid.
    apply negb_true_iff, Z.eqb_neq. exact Hother.
Qed.

Lemma delete_order_outcome_witness :
  get_order 2 (fst (delete_order 2 Sample.shop))
  = raise (HTTPException 404 "Order not found")
  /\ order_by_id (fst (delete_order 2 Sample.shop)) 1 = Some Sample.order1.
Proof.
  destruct (delete_order_outcome 2 Sample.shop) as [_ Hdel].
  destruct Hdel as (_ & Hget & _ & Hother & _); [discriminate|].
  split; [exact Hget|]. rewrite Hother; [reflexivity|discriminate].
Defined.

(* ================================================================== *)
(** * Products: creation, lookup, deletion *)
(* ================================================================== *)

Lemma product_by_id_deleted product_id db :
  product_by_id (fst (delete_product product_id db)) (Some product_id) = None.
Proof.
  unfold delete_product.
  destruct (product_by_id db (Some product_id)) as [p|] eqn:Hfind; cbn;
    [|exact Hfind].
  destruct (product_by_id_found _ _ _ Hfind) as [_ Hid]. injection Hid as Hid.
  unfold product_by_id. cbn. apply find_filter_gone. intros x Hx.
  cbn in Hx. rewrite <- Hid. now rewrite Hx.
Qed.

(** X8.  Deleting a product removes the row and nothing else: its orders
    stay in the store and become dangling.  From then on each of them is
    enriched to [None] (so the list endpoints drop it and the single
    lookup raises the associated-entity 404), the product lookup and the
    revenue endpoint fail with NotFound, and every other product is read
    back as before. *)
Theorem delete_product_orphans_orders product_id db :
  product_by_id db (Some product_id) <> None ->
  store_order (fst (delete_product product_id db)) = store_order db
  /\ store_customer (fst (delete_product product_id db)) = store_customer db
  /\ get_product product_id (fst (delete_product product_id db))
     = raise (HTTPException 404 "Product not found")
  /\ fails_not_found
       (get_total_revenue_per_product product_id
          (fst (delete_product product_id db)))
  /\ (forall order,
        Order.product_id order = Some product_id ->
        enrich_order_details order (fst (delete_product product_id db))
        = ret None)
  /\ (forall order_id order,
        order_by_id db order_id = Some order ->
        Order.product_id order = Some product_id ->
        get_order order_id (fst (delete_product product_id db))
        = raise (HTTPException 404
            "Associated product or customer not found for this order"))
  /\ (forall other,
        other <> product_id ->
        product_by_id (fst (delete_product product_id db)) (Some other)
        = product_by_id db (Some other)).
Proof.
  intros Hsome.
  pose proof (product_by_id_deleted product_id db) as Hgone.
  destruct (product_by_id db (Some product_id)) as [p|] eqn:Hfind;
    [|congruence].
  destruct (product_by_id_found _ _ _ Hfind) as [_ Hid]. injection Hid as Hid.
  assert (Horders : store_order (fst (delete_product product_id db))
                    = store_order db)
    by (unfold delete_product; now rewrite Hfind).
  assert (Hdangling : forall order,
            Order.product_id order = Some product_id ->
            enrich_order_details order (fst (delete_product product_id db))
            = ret None).
  { intros order Hpid. apply enrich_dangling. unfold resolves.
    now rewrite Hpid, Hgone. }
  split; [exact Horders|].
  split; [unfold delete_product; now rewrite Hfind|].
  split; [unfold get_product; now rewrite Hgone|].
  split.
  { unfold get_total_revenue_per_product. rewrite Hgone. eexists. reflexivity. }
  split; [exact Hdangling|]. split.
  - intros order_id order Hread Hpid. unfold get_order.
    unfold order_by_id in *. rewrite Horders, Hread.
    now rewrite (Hdangling order Hpid).
  - intros other Hother. unfold delete_product. rewrite Hfind. cbn.
    unfold product_by_id. cbn. apply find_filter_other.
    intros x Hx. cbn in Hx. apply Z.eqb_eq in Hx. rewrite Hx, <- Hid.
    apply negb_true_iff, Z.eqb_neq. exact Hother.
Qed.

Lemma delete_product_orphans_orders_witness :
  enrich_order_details Sample.order1 (fst (delete_product 1 Sample.shop))
  = ret None
  /\ get_order 1 (fst (delete_product 1 Sample.shop))
     = raise (HTTPException 404
         "Associated product or customer not found for this order")
  /\ enrich_order_details Sample.order1 Sample.shop <> ret None.
Proof.
  destruct (delete_product_orphans_orders 1 Sample.shop)
    as (_ & _ & _ & _ & Hnone & Hget & _); [discriminate|].
  split; [exact (Hnone Sample.order1 eq_refl)|].
  split; [exact (Hget 1 Sample.order1 eq_refl eq_refl)|].
  vm_compute. discriminate.
Defined.

(** X9.  Whatever [PUT /products/{id}] answers, [GET /products/{id}]
    answers afterwards: the product that was created or updated is read
    back under the id of the request. *)
Theorem update_product_then_get_product product_id product db row :
  snd (update_product product_id product db) = ret row ->
  Product.id row = product_id
  /\ get_product product_id (fst (update_product product_id product db))
     = ret row.
Proof.
  unfold update_product, get_product.
  destruct (product_by_id db (Some product_id)) as [p|] eqn:Hfind.
  - destruct (product_by_id_found _ _ _ Hfind) as [_ Hid].
    injection Hid as Hid.
    destruct (set_product_fields product p) as [e|row'] eqn:Hset;
      cbn [fst snd]; [discriminate|].
    intros H. injection H as ->.
    pose proof (set_product_fields_id _ _ _ Hset) as Hrow.
    split; [congruence|].
    assert (Hw : product_by_id (write_product row db) (Some product_id)
                 = Some row).
    { pose proof (product_by_id_write_product db row p) as Hw.
      rewrite Hrow, <- Hid in Hw. now apply Hw. }
    now rewrite Hw.
  - unfold insert_product.
    destruct (dict_value (ProductUpdate.name product)) as [name|]; cbn;
      [|discriminate].
    intros H. injection H as <-. split; [reflexivity|].
    unfold product_by_id in *. cbn [store_product].
    rewrite (find_app_none _ _ _ Hfind). cbn. now rewrite Z.eqb_refl.
Qed.

Lemma update_product_then_get_product_witness :
  exists row,
    get_product 1 (fst (update_product 1 More.reprice Sample.shop)) = ret row
    /\ Product.price row = Some 120%float
    /\ Product.name row = "Mug".
Proof.
  destruct (update_product_then_get_product 1 More.reprice Sample.shop
              (Product.mk 1 "Mug" (Some 120%float) (Some 1) (Some "") None
                 (Some false) (Some 80%float)) eq_refl) as [_ Hget].
  eexists. split; [exact Hget|]. split; reflexivity.
Defined.


(** X11.  Amounts are recomputed from the product's current row: after a
    [PUT /products/{id}] that answers with [row], every order of that
    product whose customer exists is enriched at the price of [row], not
    at the price the product had when the order was placed. *)
Theorem enrich_after_update_product product_id product db row order c q e :
  snd (update_product product_id product db) = ret row ->
  Order.product_id order = Some product_id ->
  customer_by_id db (Order.customer_id order) = Some c ->
  Order.quantity order = Some q ->
  unit_price row = ret (Some e) ->
  exists v,
    enrich_order_details order (fst (update_product product_id product db))
    = ret (Some v)
    /\ DjangoOrderResponse.amount_paid v = PrimFloat.mul e (float_of_int q)
    /\ DjangoOrderResponse.items_list v
       = [OrderItem.mk (Product.name row) (Some q) e].
Proof.
  intros Hret Hpid Hc Hq He.
  destruct (update_product_then_get_product _ _ _ _ Hret) as [_ Hget].
  unfold get_product in Hget.
  destruct (product_by_id (fst (update_product product_id product db))
              (Some product_id)) as [p|] eqn:Hfind; [|discriminate].
  injection Hget as ->.
  apply enrich_priced with (c := c); try assumption.
  - now rewrite Hpid.
  - unfold update_product.
    destruct (product_by_id db (Some product_id)) as [p0|].
    + destruct (set_product_fields product p0); exact Hc.
    + unfold insert_product.
      destruct (dict_value (ProductUpdate.name product)); exact Hc.
Qed.

Lemma enrich_after_update_product_witness :
  (exists v,
     enrich_order_details Sample.order1 Sample.shop = ret (Some v)
     /\ DjangoOrderResponse.amount_paid v = 240%float)
  /\ (exists v,
        enrich_order_details Sample.order1
          (fst (update_product 1 More.reprice Sample.shop)) = ret (Some v)
        /\ DjangoOrderResponse.amount_paid v = 360%float).
Proof.
  split; [eexists; split; reflexivity|].
  destruct (enrich_after_update_product 1 More.reprice Sample.shop
              (Product.mk 1 "Mug" (Some 120%float) (Some 1) (Some "") None
                 (Some false) (Some 80%float))
              Sample.order1 Sample.ann 3 120%float
              eq_refl eq_refl eq_refl eq_refl eq_refl)
    as (v & Hv & Hamount & _).
  exists v. split; [exact Hv|exact Hamount].
Defined.

(* ================================================================== *)
(** * Order update: the other fields *)
(* ================================================================== *)

Lemma set_order_fields_applied now order o :
  field_applied (OrderUpdate.product_id order) (Order.product_id o)
    (Order.product_id (set_order_fields now order o))
  /\ field_applied (OrderUpdate.customer_id order) (Order.customer_id o)
       (Order.customer_id (set_order_fields now order o))
  /\ field_applied (OrderUpdate.quantity order) (Order.quantity o)
       (Order.quantity (set_order_fields now order o))
  /\ field_applied (OrderUpdate.address order) (Order.address o)
       (Order.address (set_order_fields now order o))
  /\ field_applied (OrderUpdate.phone order) (Order.phone o)
       (Order.phone (set_order_fields now order o))
  /\ field_applied (OrderUpdate.status order) (Order.status o)
       (Order.status (set_order_fields now order o))
  /\ Order.date (set_order_fields now order o) = Order.date o.
Proof.
  unfold set_order_fields, set_status_field, field_applied.
  destruct o as [i pid cid q a ph d st [stamped|]];
    destruct (OrderUpdate.product_id order), (OrderUpdate.customer_id order),
      (OrderUpdate.quantity order), (OrderUpdate.address order),
      (OrderUpdate.phone order), (OrderUpdate.status order) as [|[[|]|]];
    repeat split; reflexivity.
Qed.

Lemma order_by_id_write_order_other db row other :
  other <> Order.id row ->
  order_by_id (write_order row db) other = order_by_id db other.
Proof.
  intros Hother. unfold order_by_id, write_order. cbn.
  induction (store_order db) as [|x rows IH]; cbn; [reflexivity|].
  destruct (Order.id x =? Order.id row) eqn:E; cbn.
  - apply Z.eqb_eq in E. rewrite <- E in Hother.
    assert (Hx : (Order.id x =? other) = false)
      by (apply Z.eqb_neq; congruence).
    assert (Hr : (Order.id row =? other) = false)
      by (apply Z.eqb_neq; congruence).
    rewrite Hx, Hr. exact IH.
  - destruct (Order.id x =? other); [reflexivity|exact IH].
Qed.

(** X12.  [PUT /orders/{id}] on a missing order fails with NotFound and
    changes nothing.  On an existing order it overwrites exactly the
    fields the payload carries (a field sent as null is set to null) and
    leaves the others, the id and the order date as they were; a payload
    without [status] leaves the shipping date alone; every other order,
    and every product and customer, is untouched. *)
Theorem update_order_partial now order_id order db :
  (order_by_id db order_id = None ->
   update_order now order_id order db
   = (db, raise (HTTPException 404 "Order not found")))
  /\ (forall o,
        order_by_id db order_id = Some o ->
        exists o',
          order_by_id (fst (update_order now order_id order db)) order_id
          = Some o'
          /\ Order.id o' = order_id
          /\ Order.date o' = Order.date o
          /\ field_applied (OrderUpdate.product_id order)
               (Order.product_id o) (Order.product_id o')
          /\ field_applied (OrderUpdate.customer_id order)
               (Order.customer_id o) (Order.customer_id o')
          /\ field_applied (OrderUpdate.quantity order)
               (Order.quantity o) (Order.quantity o')
          /\ field_applied (OrderUpdate.address order)
               (Order.address o) (Order.address o')
          /\ field_applied (OrderUpdate.phone order)
               (Order.phone o) (Order.phone o')
          /\ field_applied (OrderUpdate.status order)
               (Order.status o) (Order.status o')
          /\ (OrderUpdate.status order = Unset ->
              Order.date_shipped o' = Order.date_shipped o)
          /\ (forall other,
                other <> order_id ->
                order_by_id (fst (update_order now order_id order db)) other
                = order_by_id db other)
          /\ store_product (fst (update_order now order_id order db))
             = store_product db
          /\ store_customer (fst (update_order now order_id order db))
             = store_customer db).
Proof.
  split.
  - intros Hnone. unfold update_order. now rewrite Hnone.
  - intros o Hfind.
    destruct (update_order_found now order_id order db o Hfind) as [Hrun Hread].
    destruct (order_by_id_found _ _ _ Hfind) as [_ Hid].
    destruct (set_order_fields_applied now order o)
      as (Hpid & Hcid & Hq & Ha & Hph & Hst & Hdate).
    exists (set_order_fields now order o). rewrite Hrun. cbn [fst].
    split; [exact Hread|].
    split; [now rewrite set_order_fields_id|].
    split; [exact Hdate|].
    repeat (split; [assumption|]).
    split; [intros Hunset;
            now destruct (set_order_fields_status_unset now order o Hunset)|].
    split; [|split; reflexivity].
    intros other Hother. apply order_by_id_write_order_other.
    rewrite set_order_fields_id. congruence.
Qed.

Lemma update_order_partial_witness :
  exists o',
    order_by_id (fst (update_order Sample.noon 1 More.readdress Sample.shop)) 1
    = Some o'
    /\ Order.quantity o' = Some 7
    /\ Order.address o' = Some "2 Side St"
    /\ Order.product_id o' = Some 1
    /\ order_by_id (fst (update_order Sample.noon 1 More.readdress Sample.shop)) 2
       = Some Sample.order2.
Proof.
  destruct (update_order_partial Sample.noon 1 More.readdress Sample.shop)
    as [_ Hupd].
  destruct (Hupd Sample.order1 eq_refl)
    as (o' & Hread & _ & _ & Hpid & _ & Hq & Ha & _ & _ & _ & Hother & _).
  exists o'. split; [exact Hread|]. split; [exact Hq|]. split; [exact Ha|].
  split; [exact Hpid|]. rewrite Hother; [reflexivity|discriminate].
Defined.

Lemma set_order_fields_idempotent now now' order o :
  set_order_fields now' order (set_order_fields now order o)
  = set_order_fields now order o.
Proof.
  unfold set_order_fields, set_status_field.
  destruct o as [i pid cid q a ph d st [stamped|]];
    destruct (OrderUpdate.product_id order), (OrderUpdate.customer_id order),
      (OrderUpdate.quantity order), (OrderUpdate.address order),
      (OrderUpdate.phone order), (OrderUpdate.status order) as [|[[|]|]];
    reflexivity.
Qed.

Lemma write_order_twice row db :
  write_order row (write_order row db) = write_order row db.
Proof.
  unfold write_order. cbn. f_equal. rewrite map_map. apply map_ext.
  intros o. destruct (Order.id o =? Order.id row) eqn:E.
  - now rewrite Z.eqb_refl.
  - now rewrite E.
Qed.

(** X13.  Sending the same order update again, at whatever later time,
    changes nothing: the store after the second request is the store
    after the first.  In particular a second "shipped" keeps the first
    shipping date. *)
Theorem update_order_idempotent now now' order_id order db :
  fst (update_order now' order_id order
         (fst (update_order now order_id order db)))
  = fst (update_order now order_id order db).
Proof.
  destruct (order_by_id db order_id) as [o|] eqn:Hfind.
  - destruct (update_order_found now order_id order db o Hfind) as [Hrun Hread].
    rewrite Hrun in *. cbn [fst] in *.
    destruct (update_order_found now' order_id order _ _ Hread) as [Hrun' _].
    rewrite Hrun'. cbn [fst].
    rewrite set_order_fields_idempotent. apply write_order_twice.
  - unfold update_order. rewrite Hfind. cbn. now rewrite Hfind.
Qed.

(* ================================================================== *)
(** * The list endpoints *)
(* ================================================================== *)

(** What a view takes from its order. *)
Lemma enrich_view order db v :
  enrich_order_details order db = ret (Some v) ->
  DjangoOrderResponse.id v = Order.id order
  /\ DjangoOrderResponse.shipped v = Order.status order
  /\ DjangoOrderResponse.shipping_address v
     = str_or (Order.address order) "No address provided"
  /\ DjangoOrderResponse.date_ordered v
     = option_map strftime_Ymd (Order.date order)
  /\ DjangoOrderResponse.date_shipped v
     = option_map strftime_YmdHM (Order.date_shipped order)
  /\ exists p q price,
       product_by_id db (Order.product_id order) = Some p
       /\ Order.quantity order = Some q
       /\ unit_price p = ret (Some price)
       /\ DjangoOrderResponse.items_list v
          = [OrderItem.mk (Product.name p) (Some q) price]
       /\ DjangoOrderResponse.amount_paid v
          = PrimFloat.mul price (float_of_int q).
Proof.
  unfold enrich_order_details.
  destruct (product_by_id db (Order.product_id order)) as [p|] eqn:Hp;
    [|discriminate].
  destruct (customer_by_id db (Order.customer_id order)) as [c|];
    [|discriminate].
  destruct (unit_price p) as [e|[price|]] eqn:Hprice; cbn; try discriminate.
  destruct (Order.quantity order) as [q|] eqn:Hq; cbn; [|discriminate].
  intros H. injection H as <-. cbn. repeat (split; [reflexivity|]).
  exists p, q, price. repeat split; try reflexivity; assumption.
Qed.

(** The views of a batch come from its resolving orders, one for one and
    in order. *)
Lemma enrich_all_views orders db views :
  enrich_all orders db = ret views ->
  Forall2 (fun order v => enrich_order_details order db = ret (Some v))
          (filter (resolves db) orders) views.
Proof.
  revert views. induction orders as [|o orders IH]; intros views.
  - cbn. intros H. injection H as <-. constructor.
  - rewrite enrich_all_cons. cbn [filter].
    destruct (enrich_order_details o db) as [e|y] eqn:Hy; cbn; [discriminate|].
    destruct (enrich_all orders db) as [e|rest]; cbn; [discriminate|].
    intros H. injection H as <-.
    destruct (resolves db o) eqn:Hres.
    + destruct (enrich_resolved o db y Hres Hy) as (v & -> & _).
      constructor; [exact Hy|now apply IH].
    + rewrite (enrich_dangling _ _ Hres) in Hy. injection Hy as <-.
      now apply IH.
Qed.



Lemma insert_id_desc_In o x sorted :
  In x (insert_id_desc o sorted) <-> x = o \/ In x sorted.
Proof.
  induction sorted as [|o' rest IH]; cbn; [intuition|].
  destruct (Order.id o' <=? Order.id o); cbn; [intuition|].
  rewrite IH. intuition.
Qed.

Lemma insert_id_desc_sorted o sorted :
  StronglySorted (fun a b => Order.id a >= Order.id b) sorted ->
  StronglySorted (fun a b => Order.id a >= Order.id b) (insert_id_desc o sorted).
Proof.
  induction sorted as [|o' rest IH]; cbn; intros Hs.
  - repeat constructor.
  - apply StronglySorted_inv in Hs. destruct Hs as [Hrest Hall].
    destruct (Order.id o' <=? Order.id o) eqn:E.
    + apply Z.leb_le in E. constructor; [now constructor|].
      constructor; [lia|]. rewrite Forall_forall in *. intros x Hx.
      specialize (Hall x Hx). lia.
    + apply Z.leb_gt in E. constructor; [now apply IH|].
      rewrite Forall_forall in *. intros x Hx.
      apply insert_id_desc_In in Hx. destruct Hx as [->|Hx]; [lia|].
      now apply Hall.
Qed.

Lemma order_by_id_desc_sorted rows :
  StronglySorted (fun a b => Order.id a >= Order.id b) (order_by_id_desc rows).
Proof.
  unfold order_by_id_desc. induction rows as [|r rows IH]; cbn;
    [constructor|now apply insert_id_desc_sorted].
Qed.

Lemma order_by_id_desc_In x rows : In x (order_by_id_desc rows) <-> In x rows.
Proof.
  unfold order_by_id_desc. induction rows as [|r rows IH]; cbn; [reflexivity|].
  rewrite insert_id_desc_In, IH. intuition.
Qed.

Lemma In_firstn_in {A} (x : A) n l : In x (firstn n l) -> In x l.
Proof.
  revert l. induction n as [|n IH]; intros l; [contradiction|].
  destruct l as [|a l]; [contradiction|]. cbn.
  intros [H|H]; [now left|right; now apply IH].
Qed.

Lemma In_skipn_in {A} (x : A) n l : In x (skipn n l) -> In x l.
Proof.
  revert l. induction n as [|n IH]; intros l; [trivial|].
  destruct l as [|a l]; [contradiction|]. cbn. intros H. right. now apply IH.
Qed.

Lemma Forall2_In_right {A B} (R : A -> B -> Prop) xs ys y :
  Forall2 R xs ys -> In y ys -> exists x, In x xs /\ R x y.
Proof.
  induction 1 as [|x y' xs ys Hxy _ IH]; [contradiction|].
  intros [<-|Hin].
  - exists x. split; [now left|exact Hxy].
  - destruct (IH Hin) as (x' & Hx' & HR). exists x'. split; [now right|exact HR].
Qed.

Lemma StronglySorted_skipn {A} (R : A -> A -> Prop) n l :
  StronglySorted R l -> StronglySorted R (skipn n l).
Proof.
  revert l. induction n as [|n IH]; intros l Hs; [exact Hs|].
  destruct l as [|a l]; [constructor|]. cbn.
  apply StronglySorted_inv in Hs. now apply IH.
Qed.

Lemma StronglySorted_firstn {A} (R : A -> A -> Prop) n l :
  StronglySorted R l -> StronglySorted R (firstn n l).
Proof.
  revert l. induction n as [|n IH]; intros l Hs; [constructor|].
  destruct l as [|a l]; [constructor|]. cbn.
  apply StronglySorted_inv in Hs. destruct Hs as [Hl Hall].
  constructor; [now apply IH|]. rewrite Forall_forall in *.
  intros x Hx. apply Hall. now apply In_firstn_in in Hx.
Qed.

Lemma StronglySorted_filter {A} (R : A -> A -> Prop) f l :
  StronglySorted R l -> StronglySorted R (filter f l).
Proof.
  induction l as [|a l IH]; intros Hs; [constructor|]. cbn.
  apply StronglySorted_inv in Hs. destruct Hs as [Hl Hall].
  destruct (f a); [|now apply IH].
  constructor; [now apply IH|]. rewrite Forall_forall in *.
  intros x Hx. apply filter_In in Hx. now apply Hall.
Qed.

Lemma StronglySorted_map_id (l : list Order.t) :
  StronglySorted (fun a b => Order.id a >= Order.id b) l ->
  StronglySorted Z.ge (map Order.id l).
Proof.
  induction l as [|a l IH]; intros Hs; cbn; [constructor|].
  apply StronglySorted_inv in Hs. destruct Hs as [Hl Hall].
  constructor; [now apply IH|]. rewrite Forall_forall in *.
  intros x Hx. apply in_map_iff in Hx. destruct Hx as [o [<- Ho]].
  now apply Hall.
Qed.

Lemma get_all_orders_page_In o skip limit shipped db :
  In o (get_all_orders_page skip limit shipped db) ->
  In o (store_order db)
  /\ forall v, shipped = Some v -> Order.status o = Some v.
Proof.
  unfold get_all_orders_page. intros Hin.
  apply In_firstn_in in Hin. apply In_skipn_in in Hin.
  apply (proj1 (order_by_id_desc_In _ _)) in Hin.
  destruct shipped as [v|].
  - unfold orders_with_status in Hin. apply filter_In in Hin.
    destruct Hin as [Hin Hst]. split; [exact Hin|].
    intros v' Hv. injection Hv as <-. unfold col_eq_bool in Hst.
    destruct (Order.status o) as [b|]; [|discriminate].
    apply Bool.eqb_prop in Hst. now subst.
  - split; [exact Hin|discriminate].
Qed.

(** X14.  For a [skip] and a [limit] that are not negative: whatever
    [GET /orders] returns is ordered by id, newest first, holds at most
    [limit] views, shows only orders of the store, and with a [shipped]
    filter shows only orders with that status. *)
Theorem get_all_orders_listing (skip limit : Z) shipped db views :
  0 <= skip ->
  0 <= limit ->
  get_all_orders (Z.to_nat skip) (Z.to_nat limit) shipped db = ret views ->
  descending (map DjangoOrderResponse.id views)
  /\ Z.of_nat (List.length views) <= limit
  /\ (forall v, In v views ->
        exists o, In o (store_order db)
                  /\ enrich_order_details o db = ret (Some v))
  /\ (forall value, shipped = Some value ->
        Forall (fun v => DjangoOrderResponse.shipped v = Some value) views).
Proof.
  unfold get_all_orders. intros Hskip Hlimit Hret.
  pose proof (enrich_all_ids _ _ _ Hret) as Hids.
  pose proof (enrich_all_views _ _ _ Hret) as Hviews.
  assert (Hfrom : forall v, In v views ->
            exists o, In o (get_all_orders_page (Z.to_nat skip) (Z.to_nat limit)
                              shipped db)
                      /\ enrich_order_details o db = ret (Some v)).
  { intros v Hv.
    destruct (Forall2_In_right _ _ _ v Hviews Hv) as (o & Ho & Henrich).
    apply filter_In in Ho. exists o. tauto. }
  split; [|split; [|split]].
  - unfold descending. rewrite Hids. apply StronglySorted_Sorted.
    apply StronglySorted_map_id, StronglySorted_filter.
    unfold get_all_orders_page.
    apply StronglySorted_firstn, StronglySorted_skipn, order_by_id_desc_sorted.
  - assert (Hlen : (List.length views <= Z.to_nat limit)%nat).
    { rewrite <- (length_map DjangoOrderResponse.id), Hids, length_map.
      etransitivity; [apply filter_length_le|].
      unfold get_all_orders_page. apply firstn_le_length. }
    lia.
  - intros v Hv. destruct (Hfrom v Hv) as (o & Ho & Henrich).
    exists o. split; [|exact Henrich].
    now apply get_all_orders_page_In in Ho.
  - intros value Hshipped. apply Forall_forall. intros v Hv.
    destruct (Hfrom v Hv) as (o & Ho & Henrich).
    apply get_all_orders_page_In in Ho. destruct Ho as [_ Hst].
    destruct (enrich_view _ _ _ Henrich) as (_ & -> & _).
    now apply Hst.
Qed.

Lemma get_all_orders_listing_witness :
  exists views,
    get_all_orders 0 2 None Sample.shop = ret views
    /\ descending (map DjangoOrderResponse.id views)
    /\ Z.of_nat (List.length views) <= 2
    /\ map DjangoOrderResponse.id views = [2].
Proof.
  destruct (get_all_orders 0 2 None Sample.shop) as [e|views] eqn:Hrun;
    [vm_compute in Hrun; discriminate Hrun|].
  destruct (get_all_orders_listing 0 2 None Sample.shop views) as (Hdesc & Hlen & _);
    [lia|lia|exact Hrun|].
  exists views. split; [reflexivity|]. split; [exact Hdesc|].
  split; [exact Hlen|].
  vm_compute in Hrun. injection Hrun as <-. reflexivity.
Defined.



Lemma orders_with_status_views db value views :
  enrich_all (orders_with_status db value) db = ret views ->
  Forall (fun v => DjangoOrderResponse.shipped v = Some value) views
  /\ Forall (fun v => exists o,
               In o (store_order db)
               /\ Order.status o = Some value
               /\ DjangoOrderResponse.id v = Order.id o) views.
Proof.
  intros Hret. pose proof (enrich_all_views _ _ _ Hret) as Hviews.
  assert (Hfrom : forall v, In v views ->
            exists o, In o (store_order db)
                      /\ Order.status o = Some value
                      /\ enrich_order_details o db = ret (Some v)).
  { intros v Hv.
    destruct (Forall2_In_right _ _ _ v Hviews Hv) as (o & Ho & Henrich).
    apply filter_In in Ho. destruct Ho as [Ho _].
    unfold orders_with_status in Ho. apply filter_In in Ho.
    destruct Ho as [Ho Hst]. exists o. split; [exact Ho|].
    split; [|exact Henrich]. unfold col_eq_bool in Hst.
    destruct (Order.status o) as [b|]; [|discriminate].
    apply Bool.eqb_prop in Hst. now subst. }
  split; apply Forall_forall; intros v Hv;
    destruct (Hfrom v Hv) as (o & Ho & Hst & Henrich);
    destruct (enrich_view _ _ _ Henrich) as (Hid & Hshipped & _).
  - now rewrite Hshipped.
  - exists o. repeat split; assumption.
Qed.

(** X17.  [GET /orders-shipped] returns only views of orders whose status
    is true and [GET /orders-unshipped] only views of orders whose status
    is false, so no view is in both and an order whose status is [NULL]
    is in neither. *)
Theorem legacy_lists_by_status db :
  (forall views,
     get_orders_shipped db = ret views ->
     Forall (fun v => DjangoOrderResponse.shipped v = Some true) views
     /\ Forall (fun v => exists o,
                  In o (store_order db)
                  /\ Order.status o = Some true
                  /\ DjangoOrderResponse.id v = Order.id o) views)
  /\ (forall views,
        get_orders_unshipped db = ret views ->
        Forall (fun v => DjangoOrderResponse.shipped v = Some false) views
        /\ Forall (fun v => exists o,
                     In o (store_order db)
                     /\ Order.status o = Some false
                     /\ DjangoOrderResponse.id v = Order.id o) views)
  /\ (forall shipped unshipped v,
        get_orders_shipped db = ret shipped ->
        get_orders_unshipped db = ret unshipped ->
        In v shipped -> ~ In v unshipped).
Proof.
  split; [intros views; apply orders_with_status_views|].
  split; [intros views; apply orders_with_status_views|].
  intros shipped unshipped v Hs Hu Hin Hin'.
  apply orders_with_status_views in Hs, Hu.
  destruct Hs as [Hs _], Hu as [Hu _]. rewrite Forall_forall in Hs, Hu.
  specialize (Hs v Hin). specialize (Hu v Hin'). congruence.
Qed.

Lemma legacy_lists_by_status_witness :
  exists shipped unshipped,
    get_orders_shipped Sample.shop = ret shipped
    /\ get_orders_unshipped Sample.shop = ret unshipped
    /\ map DjangoOrderResponse.id shipped = [2]
    /\ map DjangoOrderResponse.id unshipped = [1]
    /\ Forall (fun v => DjangoOrderResponse.shipped v = Some true) shipped.
Proof.
  destruct (legacy_lists_by_status Sample.shop) as (Hshipped & _).
  destruct (get_orders_shipped Sample.shop) as [e|shipped] eqn:Hs;
    [vm_compute in Hs; discriminate Hs|].
  destruct (get_orders_unshipped Sample.shop) as [e|unshipped] eqn:Hu;
    [vm_compute in Hu; discriminate Hu|].
  exists shipped, unshipped. split; [reflexivity|]. split; [reflexivity|].
  destruct (Hshipped shipped eq_refl) as [Hflags _].
  vm_compute in Hs, Hu. injection Hs as <-. injection Hu as <-.
  split; [reflexivity|]. split; [reflexivity|exact Hflags].
Defined.

(* ================================================================== *)
(** * The enriched view *)
(* ================================================================== *)

Lemma str_or_nonempty s default : default <> "" -> str_or s default <> "".
Proof.
  intros Hd. destruct s as [[|c s]|]; cbn; try exact Hd. discriminate.
Qed.

(** X18.  Every enriched view has exactly one line item, whose quantity
    is the order's and whose price times quantity is the amount paid; its
    shipping address is never empty, being the order's address when that
    is not empty and the placeholder otherwise; its two dates are absent
    exactly when the order's are; and for an order that satisfies the
    shipping invariant the view is marked shipped exactly when it shows
    a shipping date. *)
Theorem enriched_view_shape order db v :
  enrich_order_details order db = ret (Some v) ->
  (exists item q,
     DjangoOrderResponse.items_list v = [item]
     /\ OrderItem.quantity item = Some q
     /\ Order.quantity order = Some q
     /\ DjangoOrderResponse.amount_paid v
        = PrimFloat.mul (OrderItem.price item) (float_of_int q))
  /\ DjangoOrderResponse.id v = Order.id order
  /\ DjangoOrderResponse.shipping_address v <> ""
  /\ (forall a, Order.address order = Some a -> a <> "" ->
        DjangoOrderResponse.shipping_address v = a)
  /\ (Order.address order = None \/ Order.address order = Some "" ->
      DjangoOrderResponse.shipping_address v = "No address provided")
  /\ (DjangoOrderResponse.date_ordered v = None <-> Order.date order = None)
  /\ (DjangoOrderResponse.date_shipped v = None
      <-> Order.date_shipped order = None)
  /\ (shipped_iff_dated order ->
      (DjangoOrderResponse.shipped v = Some true
       <-> DjangoOrderResponse.date_shipped v <> None)).
Proof.
  intros Henrich.
  destruct (enrich_view _ _ _ Henrich)
    as (Hid & Hshipped & Haddr & Hdate & Hstamp & p & q & price & _ & Hq & _
        & Hitems & Hamount).
  split.
  { eexists. exists q. split; [exact Hitems|]. cbn.
    split; [reflexivity|]. split; [exact Hq|exact Hamount]. }
  split; [exact Hid|].
  split; [rewrite Haddr; apply str_or_nonempty; discriminate|].
  split.
  { intros a Ha Hne. rewrite Haddr, Ha. destruct a; [congruence|reflexivity]. }
  split; [intros [Ha|Ha]; rewrite Haddr, Ha; reflexivity|].
  split; [rewrite Hdate; destruct (Order.date order); cbn; split; congruence|].
  assert (Hnone : DjangoOrderResponse.date_shipped v = None
                  <-> Order.date_shipped order = None)
    by (rewrite Hstamp; destruct (Order.date_shipped order); cbn;
        split; congruence).
  split; [exact Hnone|].
  unfold shipped_iff_dated. intros Hinv. rewrite Hshipped, Hinv, Hnone.
  reflexivity.
Qed.

Lemma enriched_view_shape_witness :
  exists v,
    enrich_order_details Sample.order2 Sample.shop = ret (Some v)
    /\ DjangoOrderResponse.shipping_address v = "No address provided"
    /\ DjangoOrderResponse.date_shipped v <> None.
Proof.
  destruct (enrich_order_details Sample.order2 Sample.shop) as [e|[v|]] eqn:Hrun;
    try (vm_compute in Hrun; discriminate Hrun).
  destruct (enriched_view_shape Sample.order2 Sample.shop v Hrun)
    as (_ & _ & _ & _ & Hplace & _ & _ & Hinv).
  exists v. split; [reflexivity|]. split; [apply Hplace; now right|].
  apply Hinv.
  - unfold shipped_iff_dated. cbn. split; intros; congruence.
  - vm_compute in Hrun. injection Hrun as <-. reflexivity.
Defined.

(* ================================================================== *)
(** * Customers *)
(* ================================================================== *)

(** X19.  [POST /customers] never fails and never touches a record that
    was there: the customers listed before are listed after, in the same
    order, followed by at most one new record; the record returned is
    always listed afterwards, and a new record gets a key no customer
    had. *)
Theorem create_customer_listing customer db :
  exists c,
    snd (create_customer customer db) = ret c
    /\ In c (get_customers (fst (create_customer customer db)))
    /\ (get_customers (fst (create_customer customer db)) = get_customers db
        \/ (get_customers (fst (create_customer customer db))
            = (get_customers db ++ [c])%list
            /\ ~ In (Customer.id c) (map Customer.id (get_customers db))
            /\ customer_by_email db (CustomerCreate.email customer) = None))
    /\ store_product (fst (create_customer customer db)) = store_product db
    /\ store_order (fst (create_customer customer db)) = store_order db.
Proof.
  unfold create_customer, get_customers.
  destruct (customer_by_email db (CustomerCreate.email customer)) as [c|] eqn:H.
  - exists c. cbn. split; [reflexivity|].
    split; [unfold customer_by_email in H; now apply find_some in H|].
    split; [now left|split; reflexivity].
  - eexists. cbn. split; [reflexivity|].
    split; [apply in_or_app; right; now left|].
    split; [|split; reflexivity].
    right. split; [reflexivity|]. split; [apply autoincrement_fresh|reflexivity].
Qed.

(* ================================================================== *)
(** * The two analysis endpoints agree *)
(* ================================================================== *)

(** X20.  Whatever the highest-selling endpoint returns, the revenue
    endpoint returns for that product: same name, same revenue, same
    quantity. *)
Theorem highest_selling_agrees_with_revenue engine db r :
  sorts_by_total_desc engine ->
  get_highest_selling_product engine db = ret r ->
  get_total_revenue_per_product (ProductAnalysisResponse.product_id r) db
  = ret r.
Proof.
  intros Hengine. unfold get_highest_selling_product.
  destruct (top_selling engine db) as [[k total]|] eqn:Htop; [|discriminate].
  destruct (product_by_id db k) as [p|] eqn:Hp; [|discriminate].
  destruct (foldM (add_revenue p) (orders_of_product db (Product.id p)) 0%float)
    as [e|rev] eqn:Hloop; cbn; [discriminate|].
  intros H. injection H as <-. cbn [ProductAnalysisResponse.product_id].
  destruct (top_selling_orders engine Hengine db k total p Htop Hp)
    as (_ & Hsome & Htotal).
  destruct (product_by_id_found db k p Hp) as [_ Hk].
  destruct (revenue_loop_returns p _ _ _ Hloop)
    as (quantities & Hqs & [[Hnil _]|(e & He & ->)]); [contradiction|].
  unfold get_total_revenue_per_product. rewrite <- Hk, Hp.
  rewrite (revenue_and_quantity_loop p e _ quantities _ He Hqs). cbn.
  do 2 f_equal. rewrite Htotal, Hqs. symmetry. apply sql_sum_populated.
  intros ->. destruct (orders_of_product db (Product.id p));
    [contradiction|discriminate].
Qed.

Lemma highest_selling_agrees_with_revenue_witness :
  get_total_revenue_per_product 2 Sample.shop
  = get_highest_selling_product insertion_order_by_total_desc Sample.shop.
Proof.
  exact (highest_selling_agrees_with_revenue insertion_order_by_total_desc
           Sample.shop (ProductAnalysisResponse.mk 2 "Pen" 12.5%float (Some 5))
           insertion_engine_sorts eq_refl).
Defined.

(* ================================================================== *)
(** * The sample-data endpoint *)
(* ================================================================== *)

Lemma create_sample_data_seeds today now store_category db :
  store_order db = [] ->
  customer_by_email db "john.doe@example.com" = None ->
  exists category customer prod1 prod2 order1 order2,
    create_sample_data today now store_category db
    = (((store_category ++ [category])%list,
        mkDB (store_product db ++ [prod1; prod2])
             (store_customer db ++ [customer]) [order1; order2]),
       ret (MessageResponse.mk "Sample data created successfully!"))
    /\ Category.id category = autoincrement (map Category.id store_category)
    /\ Customer.id customer = autoincrement (map Customer.id (store_customer db))
    /\ Customer.email customer = Some "john.doe@example.com"
    /\ Product.id prod1 = autoincrement (map Product.id (store_product db))
    /\ Product.id prod2 = autoincrement (map Product.id (store_product db ++ [prod1]))
    /\ Product.category_id prod1 = Some (Category.id category)
    /\ Product.category_id prod2 = Some (Category.id category)
    /\ order1 = Order.mk 1 (Some (Product.id prod1)) (Some (Customer.id customer))
                  (Some 2) (Some "123 Main St") (Some "") (Some today)
                  (Some false) None
    /\ order2 = Order.mk 2 (Some (Product.id prod2)) (Some (Customer.id customer))
                  (Some 1) (Some "456 Oak Ave") (Some "") (Some today)
                  (Some true) (Some now).
Proof.
  intros Hnil Hfree. unfold create_sample_data. rewrite Hnil, Hfree.
  do 6 eexists. split; [reflexivity|]. cbn.
  repeat split; reflexivity.
Qed.

(** X21.  The sample-data endpoint does nothing when the store holds an
    order.  On a store without orders it adds one category, one customer,
    two products and two orders, unless the sample email is taken: then
    it fails with [IntegrityError] and the category it had already
    committed stays, everything else being as before. *)
Theorem create_sample_data_outcome today now store_category db :
  (store_order db <> [] ->
   create_sample_data today now store_category db
   = ((store_category, db),
      ret (MessageResponse.mk "Sample data already exists.")))
  /\ (store_order db = [] ->
      customer_by_email db "john.doe@example.com" <> None ->
      exists category,
        create_sample_data today now store_category db
        = (((store_category ++ [category])%list, db), raise IntegrityError))
  /\ (store_order db = [] ->
      customer_by_email db "john.doe@example.com" = None ->
      exists categories db',
        create_sample_data today now store_category db
        = ((categories, db'),
           ret (MessageResponse.mk "Sample data created successfully!"))
        /\ List.length categories = S (List.length store_category)
        /\ List.length (store_customer db') = S (List.length (store_customer db))
        /\ List.length (store_product db')
           = S (S (List.length (store_product db)))
        /\ List.length (store_order db') = 2%nat).
Proof.
  split; [|split].
  - intros Hsome. unfold create_sample_data.
    destruct (store_order db); [congruence|reflexivity].
  - intros Hnil Htaken. unfold create_sample_data. rewrite Hnil.
    destruct (customer_by_email db "john.doe@example.com"); [|congruence].
    eexists. reflexivity.
  - intros Hnil Hfree.
    destruct (create_sample_data_seeds today now store_category db Hnil Hfree)
      as (category & customer & prod1 & prod2 & order1 & order2 & Hrun & _).
    do 2 eexists. split; [exact Hrun|]. cbn.
    rewrite !length_app. cbn. repeat split; lia.
Qed.

Lemma create_sample_data_outcome_witness :
  snd (create_sample_data Sample.day Sample.noon [] More.taken)
  = raise IntegrityError
  /\ List.length (fst (fst (create_sample_data Sample.day Sample.noon []
                              More.taken))) = 1%nat
  /\ snd (create_sample_data Sample.day Sample.noon [] Sample.shop)
     = ret (MessageResponse.mk "Sample data already exists.")
  /\ snd (create_sample_data Sample.day Sample.noon [] Sample.empty)
     = ret (MessageResponse.mk "Sample data created successfully!").
Proof.
  destruct (create_sample_data_outcome Sample.day Sample.noon [] More.taken)
    as (_ & Htaken & _).
  destruct (Htaken eq_refl) as [category Hrun]; [discriminate|].
  destruct (create_sample_data_outcome Sample.day Sample.noon [] Sample.shop)
    as (Hnoop & _).
  destruct (create_sample_data_outcome Sample.day Sample.noon [] Sample.empty)
    as (_ & _ & Hseed).
  destruct (Hseed eq_refl eq_refl) as (categories & db' & Hrun' & _).
  split; [now rewrite Hrun|]. split; [now rewrite Hrun|].
  split; [rewrite Hnoop; [reflexivity|discriminate]|now rewrite Hrun'].
Defined.

(** X22.  The sample-data endpoint is idempotent: once it has answered,
    calling it again, at whatever time, changes nothing and reports that
    the data exists. *)
Theorem create_sample_data_idempotent today now today' now' store_category db m :
  snd (create_sample_data today now store_category db) = ret m ->
  create_sample_data today' now'
    (fst (fst (create_sample_data today now store_category db)))
    (snd (fst (create_sample_data today now store_category db)))
  = (fst (create_sample_data today now store_category db),
     ret (MessageResponse.mk "Sample data already exists.")).
Proof.
  destruct (store_order db) as [|o orders] eqn:Horders.
  - destruct (customer_by_email db "john.doe@example.com") as [c|] eqn:Hemail.
    + unfold create_sample_data at 1. rewrite Horders, Hemail. discriminate.
    + intros _.
      destruct (create_sample_data_seeds today now store_category db
                  Horders Hemail)
        as (category & customer & prod1 & prod2 & order1 & order2 & Hrun & _).
      rewrite Hrun. reflexivity.
  - intros _. unfold create_sample_data at 2 3 4. rewrite Horders. cbn [fst snd].
    unfold create_sample_data. rewrite Horders. reflexivity.
Qed.

Lemma create_sample_data_idempotent_witness :
  create_sample_data Sample.day Sample.later
    (fst (fst (create_sample_data Sample.day Sample.noon [] Sample.empty)))
    (snd (fst (create_sample_data Sample.day Sample.noon [] Sample.empty)))
  = (fst (create_sample_data Sample.day Sample.noon [] Sample.empty),
     ret (MessageResponse.mk "Sample data already exists.")).
Proof.
  exact (create_sample_data_idempotent Sample.day Sample.noon Sample.day
           Sample.later [] Sample.empty
           (MessageResponse.mk "Sample data created successfully!") eq_refl).
Defined.

Lemma product_by_id_snoc2 db prod1 prod2 :
  NoDup (map Product.id (store_product db)) ->
  Product.id prod1 = autoincrement (map Product.id (store_product db)) ->
  Product.id prod2 = autoincrement (map Product.id (store_product db ++ [prod1])) ->
  find (fun p => pk_eq (Product.id p) (Some (Product.id prod1)))
       (store_product db ++ [prod1; prod2]) = Some prod1
  /\ find (fun p => pk_eq (Product.id p) (Some (Product.id prod2)))
          (store_product db ++ [prod1; prod2]) = Some prod2
  /\ NoDup (map Product.id (store_product db ++ [prod1; prod2])).
Proof.
  intros Hnd H1 H2.
  assert (Hf1 : ~ In (Product.id prod1) (map Product.id (store_product db)))
    by (rewrite H1; apply autoincrement_fresh).
  assert (Hf2 : ~ In (Product.id prod2)
                    (map Product.id (store_product db ++ [prod1])))
    by (rewrite H2; apply autoincrement_fresh).
  assert (Hne : Product.id prod1 <> Product.id prod2).
  { intros Heq. apply Hf2. rewrite map_app, <- Heq. apply in_or_app.
    right. now left. }
  assert (Hold : forall v, ~ In v (map Product.id (store_product db)) ->
            find (fun p => pk_eq (Product.id p) (Some v)) (store_product db)
            = None).
  { intros v Hv. apply find_none_iff. intros x Hx. cbn. apply Z.eqb_neq.
    intros Heq. apply Hv. rewrite <- Heq. now apply in_map. }
  change (store_product db ++ [prod1; prod2])%list
    with (store_product db ++ [prod1] ++ [prod2])%list.
  rewrite app_assoc. split; [|split].
  - rewrite find_app_last; [|cbn; apply Z.eqb_neq; congruence].
    rewrite find_app_none by now apply Hold. cbn. now rewrite Z.eqb_refl.
  - rewrite find_app_none.
    + cbn. now rewrite Z.eqb_refl.
    + apply find_none_iff. intros x Hx. cbn. apply Z.eqb_neq. intros Heq.
      apply Hf2. rewrite <- Heq. now apply in_map.
  - rewrite map_app. apply NoDup_snoc; [|exact Hf2].
    rewrite map_app. now apply NoDup_snoc.
Qed.

(** X23.  Seeding a store that has unique keys, no order and no customer
    with the sample email leaves a consistent store: keys are still
    unique, both sample orders satisfy the shipping invariant, and both
    resolve to their product and customer, so none is dropped from a
    listing. *)
Theorem create_sample_data_consistent today now store_category db :
  keys_unique db ->
  store_order db = [] ->
  customer_by_email db "john.doe@example.com" = None ->
  let db' := snd (fst (create_sample_data today now store_category db)) in
  keys_unique db'
  /\ Forall shipped_iff_dated (store_order db')
  /\ Forall (fun o => resolves db' o = true) (store_order db')
  /\ map Order.quantity (store_order db') = [Some 2; Some 1]
  /\ map Order.status (store_order db') = [Some false; Some true].
Proof.
  intros (Hkp & Hkc & Hko) Hnil Hfree.
  destruct (create_sample_data_seeds today now store_category db Hnil Hfree)
    as (category & customer & prod1 & prod2 & order1 & order2 & Hrun & _
        & Hcid & _ & Hp1 & Hp2 & _ & _ & -> & ->).
  rewrite Hrun. cbn [fst snd].
  destruct (product_by_id_snoc2 db prod1 prod2 Hkp Hp1 Hp2)
    as (Hfind1 & Hfind2 & Hnd).
  assert (Hcust : find (fun c => pk_eq (Customer.id c)
                                    (Some (Customer.id customer)))
                        (store_customer db ++ [customer]) = Some customer).
  { rewrite find_app_none.
    - cbn. now rewrite Z.eqb_refl.
    - apply find_none_iff. intros x Hx. cbn. apply Z.eqb_neq. intros Heq.
      apply (autoincrement_fresh (map Customer.id (store_customer db))).
      rewrite <- Hcid, <- Heq. now apply in_map. }
  split; [|split; [|split; [|split; reflexivity]]].
  - unfold keys_unique. cbn [store_product store_customer store_order].
    split; [exact Hnd|]. split.
    + rewrite map_app. cbn. apply NoDup_snoc; [exact Hkc|].
      rewrite Hcid. apply autoincrement_fresh.
    + cbn. repeat constructor; cbn; intuition discriminate.
  - cbn [store_order]. repeat constructor; cbn; intros; congruence.
  - cbn [store_order]. repeat constructor; unfold resolves;
      cbn [Order.product_id Order.customer_id];
      unfold product_by_id, customer_by_id;
      cbn [store_product store_customer];
      rewrite ?Hfind1, ?Hfind2, Hcust; reflexivity.
Qed.

Lemma create_sample_data_consistent_witness :
  keys_unique
    (snd (fst (create_sample_data Sample.day Sample.noon [] Sample.empty)))
  /\ exists views,
       get_all_orders 0 100 None
         (snd (fst (create_sample_data Sample.day Sample.noon [] Sample.empty)))
       = ret views
       /\ map DjangoOrderResponse.id views = [2; 1].
Proof.
  destruct (create_sample_data_consistent Sample.day Sample.noon []
              Sample.empty) as (Hkeys & _).
  - repeat split; constructor.
  - reflexivity.
  - reflexivity.
  - split; [exact Hkeys|]. eexists. split; reflexivity.
Defined.

(* ================================================================== *)
(** * What a client sees of a failure *)
(* ================================================================== *)





(* ================================================================== *)
(** * The upsert leaves the rest alone; listings are complete *)
(* ================================================================== *)

Lemma product_by_id_write_product_other db row other :
  other <> Product.id row ->
  product_by_id (write_product row db) (Some other)
  = product_by_id db (Some other).
Proof.
  intros Hother. unfold product_by_id, write_product. cbn.
  induction (store_product db) as [|x rows IH]; cbn; [reflexivity|].
  destruct (Product.id x =? Product.id row) eqn:E; cbn.
  - apply Z.eqb_eq in E. rewrite <- E in Hother.
    assert (Hx : (Product.id x =? other) = false)
      by (apply Z.eqb_neq; congruence).
    assert (Hr : (Product.id row =? other) = false)
      by (apply Z.eqb_neq; congruence).
    rewrite Hx, Hr. exact IH.
  - destruct (Product.id x =? other); [reflexivity|exact IH].
Qed.

(** X25.  [PUT /products/{id}] touches the product of that id only:
    every other product is read back as before, customers and orders are
    left alone, and a request that fails leaves the whole store as it
    was. *)
Theorem update_product_frame product_id product db :
  (forall other,
     other <> product_id ->
     get_product other (fst (update_product product_id product db))
     = get_product other db)
  /\ store_customer (fst (update_product product_id product db))
     = store_customer db
  /\ store_order (fst (update_product product_id product db)) = store_order db
  /\ (forall e,
        snd (update_product product_id product db) = raise e ->
        e = IntegrityError
        /\ fst (update_product product_id product db) = db).
Proof.
  unfold update_product, get_product.
  destruct (product_by_id db (Some product_id)) as [p|] eqn:Hfind.
  - destruct (product_by_id_found _ _ _ Hfind) as [_ Hid].
    injection Hid as Hid.
    destruct (set_product_fields product p) as [e|row] eqn:Hset; cbn [fst snd].
    + split; [reflexivity|]. split; [reflexivity|]. split; [reflexivity|].
      intros e' He'. injection He' as <-. split; [|reflexivity].
      unfold set_product_fields in Hset.
      destruct (ProductUpdate.name product) as [|[n|]]; cbn in Hset;
        try discriminate.
      now injection Hset as <-.
    + pose proof (set_product_fields_id _ _ _ Hset) as Hrow.
      split; [|split; [reflexivity|split; [reflexivity|discriminate]]].
      intros other Hother.
      rewrite product_by_id_write_product_other; [reflexivity|congruence].
  - unfold insert_product.
    destruct (dict_value (ProductUpdate.name product)) as [name|];
      cbn [fst snd].
    + split; [|split; [reflexivity|split; [reflexivity|discriminate]]].
      intros other Hother. unfold product_by_id. cbn [store_product].
      rewrite find_app_last; [reflexivity|].
      cbn. apply Z.eqb_neq. congruence.
    + split; [reflexivity|]. split; [reflexivity|]. split; [reflexivity|].
      intros e' He'. injection He' as <-. split; reflexivity.
Qed.

Lemma update_product_frame_witness :
  get_product 2 (fst (update_product 1 More.reprice Sample.shop))
  = ret Sample.pen
  /\ fst (update_product 7 Sample.price_only Sample.shop) = Sample.shop.
Proof.
  destruct (update_product_frame 1 More.reprice Sample.shop) as (Hother & _).
  destruct (update_product_frame 7 Sample.price_only Sample.shop)
    as (_ & _ & _ & Hfail).
  split; [rewrite Hother; [reflexivity|discriminate]|].
  now destruct (Hfail IntegrityError eq_refl).
Defined.

Lemma insert_id_desc_perm o sorted :
  Permutation (insert_id_desc o sorted) (o :: sorted).
Proof.
  induction sorted as [|o' rest IH]; cbn; [reflexivity|].
  destruct (Order.id o' <=? Order.id o); [reflexivity|].
  rewrite IH. apply perm_swap.
Qed.

Lemma order_by_id_desc_perm rows : Permutation (order_by_id_desc rows) rows.
Proof.
  unfold order_by_id_desc. induction rows as [|r rows IH]; cbn; [reflexivity|].
  rewrite insert_id_desc_perm. now constructor.
Qed.

Lemma Permutation_filter {A} (f : A -> bool) l l' :
  Permutation l l' -> Permutation (filter f l) (filter f l').
Proof.
  induction 1 as [|x l l' _ IH|x y l|l l' l'' _ IH1 _ IH2]; cbn.
  - constructor.
  - destruct (f x); [now constructor|exact IH].
  - destruct (f x), (f y); try reflexivity. apply perm_swap.
  - now transitivity (filter f l').
Qed.

Lemma get_all_orders_page_all limit shipped db :
  (List.length (store_order db) <= limit)%nat ->
  Permutation (get_all_orders_page 0 limit shipped db)
    (match shipped with
     | Some v => orders_with_status db v
     | None => store_order db
     end).
Proof.
  intros Hlen. unfold get_all_orders_page. cbn [skipn].
  rewrite firstn_all2; [apply order_by_id_desc_perm|].
  rewrite (Permutation_length (order_by_id_desc_perm _)).
  destruct shipped; [|exact Hlen].
  etransitivity; [apply filter_length_le|exact Hlen].
Qed.

(** X26.  With no offset and a limit that covers the table, [GET /orders]
    leaves out nothing but the dangling orders: the ids it returns are,
    up to order, the ids of the orders whose product and customer exist
    (with the requested status, if one is given).  With the filter
    [shipped=true] or [shipped=false] it then shows the same orders as
    the legacy endpoint for that status, which returns as well. *)
Theorem get_all_orders_complete limit shipped db views :
  (List.length (store_order db) <= limit)%nat ->
  get_all_orders 0 limit shipped db = ret views ->
  Permutation (map DjangoOrderResponse.id views)
    (map Order.id
       (filter (resolves db)
          (match shipped with
           | Some v => orders_with_status db v
           | None => store_order db
           end)))
  /\ (forall value,
        shipped = Some value ->
        exists legacy,
          enrich_all (orders_with_status db value) db = ret legacy
          /\ Permutation (map DjangoOrderResponse.id views)
               (map DjangoOrderResponse.id legacy)).
Proof.
  intros Hlen Hret. unfold get_all_orders in Hret.
  pose proof (get_all_orders_page_all limit shipped db Hlen) as Hperm.
  pose proof (enrich_all_ids _ _ _ Hret) as Hids.
  assert (Hall : Permutation (map DjangoOrderResponse.id views)
            (map Order.id
               (filter (resolves db)
                  (match shipped with
                   | Some v => orders_with_status db v
                   | None => store_order db
                   end)))).
  { rewrite Hids. apply Permutation_map. now apply Permutation_filter. }
  split; [exact Hall|].
  intros value ->.
  destruct (enrich_all_returns (orders_with_status db value) db)
    as [legacy Hlegacy].
  { intros o Ho Hres.
    assert (Hin : In o (filter (resolves db)
                          (get_all_orders_page 0 limit (Some value) db))).
    { apply filter_In. split; [|exact Hres].
      apply (Permutation_in _ (Permutation_sym Hperm)). exact Ho. }
    pose proof (enrich_all_views _ _ _ Hret) as Hviews.
    clear - Hviews Hin.
    induction Hviews as [|x v xs vs Hxv _ IH]; [contradiction|].
    destruct Hin as [->|Hin]; [now exists v|now apply IH]. }
  exists legacy. split; [exact Hlegacy|].
  rewrite (enrich_all_ids _ _ _ Hlegacy). exact Hall.
Qed.

Lemma get_all_orders_complete_witness :
  exists views legacy,
    get_all_orders 0 100 (Some true) Sample.shop = ret views
    /\ get_orders_shipped Sample.shop = ret legacy
    /\ Permutation (map DjangoOrderResponse.id views)
         (map DjangoOrderResponse.id legacy).
Proof.
  destruct (get_all_orders 0 100 (Some true) Sample.shop) as [e|views] eqn:Hrun;
    [vm_compute in Hrun; discriminate Hrun|].
  destruct (get_all_orders_complete 100 (Some true) Sample.shop views)
    as [_ Hlegacy]; [cbn; lia|exact Hrun|].
  destruct (Hlegacy true eq_refl) as (legacy & Hl & Hperm).
  exists views, legacy. split; [reflexivity|]. split; [exact Hl|exact Hperm].
Defined.
